(** * Super-Agent Platform web client: role guard, API client and store

    A shallow embedding of [App.tsx] (the React/Redux web front end of the
    multi-framework agent platform): the type definitions, the [ApiClient]
    class with its two axios interceptors, the initial Redux state, and the
    components [ProtectedRoute], [ExecutionForm], [Dashboard] and
    [LoginPage].  The routing back end the client talks to is modelled
    separately in [Module Core]. *)

From Stdlib Require Import ZArith.
From stdpp Require Import base option list strings gmap.

Local Open Scope string_scope.
Local Open Scope Z_scope.

(** ** Type definitions *)

Inductive UserRole := ADMIN | ANALYST | USER | SERVICE_ACCOUNT.

Inductive TaskPriority := LOW | MEDIUM | HIGH | URGENT.

Inductive ExecutionEngine := DIRECT_LLM | CREWAI | AUTOGEN.

(** The string each enum member is initialised with. *)
Definition UserRole_value (r : UserRole) : string :=
  match r with
  | ADMIN => "admin"
  | ANALYST => "analyst"
  | USER => "user"
  | SERVICE_ACCOUNT => "service_account"
  end.

Definition TaskPriority_value (p : TaskPriority) : string :=
  match p with
  | LOW => "low"
  | MEDIUM => "medium"
  | HIGH => "high"
  | URGENT => "urgent"
  end.

Definition ExecutionEngine_value (e : ExecutionEngine) : string :=
  match e with
  | DIRECT_LLM => "direct_llm"
  | CREWAI => "crewai"
  | AUTOGEN => "autogen"
  end.

(** [Object.values(ExecutionEngine)], in declaration order. *)
Definition ExecutionEngine_values : list ExecutionEngine :=
  [DIRECT_LLM; CREWAI; AUTOGEN].

Global Instance UserRole_eq_dec : EqDecision UserRole.
Proof. solve_decision. Defined.
Global Instance TaskPriority_eq_dec : EqDecision TaskPriority.
Proof. solve_decision. Defined.
Global Instance ExecutionEngine_eq_dec : EqDecision ExecutionEngine.
Proof. solve_decision. Defined.

(** JavaScript numbers and [Date]s are only stored and passed on by the
    code below; they are carried as integers. *)
Definition number := Z.
Definition Date := Z.

Record User := mkUser {
  id : string;
  username : string;
  email : string;
  role : UserRole;
  isActive : bool;
  createdAt : Date;
  lastLogin : option Date
}.

Record ExecutionRequest := mkExecutionRequest {
  taskDescription : string;
  priority : TaskPriority;
  context : option (list (string * string));
  maxTokens : option number;
  temperature : option number
}.

Record ExecutionResponse := mkExecutionResponse {
  executionId : string;
  status : string;
  result : option string;
  executionTime : number;
  engine : ExecutionEngine;
  tokensUsed : number;
  costUsd : number;
  timestamp : Date
}.

Record AuthState := mkAuthState {
  user : option User;
  token : option string;
  isAuthenticated : bool;
  isLoading : bool;
  error : option string
}.

(** Truthiness of a JavaScript string: every string but the empty one. *)
Definition truthy (s : string) : bool :=
  match s with
  | EmptyString => false
  | String _ _ => true
  end.

(** [x || null] and [!!x] for [x : string | null]. *)
Definition or_null (x : option string) : option string :=
  match x with
  | Some s => if truthy s then Some s else None
  | None => None
  end.

Definition double_bang (x : option string) : bool :=
  match x with
  | Some s => truthy s
  | None => false
  end.

(** ** Protected route component *)

Inductive Rendered := NavigateToLogin | AccessDenied | Children.

Definition roleHierarchy (r : UserRole) : Z :=
  match r with
  | ADMIN => 4
  | ANALYST => 3
  | USER => 2
  | SERVICE_ACCOUNT => 1
  end.

Definition ProtectedRoute (requiredRole : option UserRole) (auth : AuthState)
  : Rendered :=
  match isAuthenticated auth, user auth with
  | true, Some u =>
      match requiredRole with
      | Some r =>
          if roleHierarchy (role u) <? roleHierarchy r
          then AccessDenied
          else Children
      | None => Children
      end
  | _, _ => NavigateToLogin
  end.

(** ** HTTP layer

    What the axios instance puts on the wire and what comes back.  A
    request is the config object after the request interceptor has run; a
    reply is a settled promise, fulfilled with [response.data] or rejected
    with an error that carries [error.response?.status] and
    [error.response?.data?.detail]. *)

Inductive Method := GET | POST.

Inductive Body :=
  | NoBody
  | LoginBody (username_ password_ : string)
  | ExecuteBody (request_ : ExecutionRequest).

Record Request := mkRequest {
  method : Method;
  url : string;
  headers : gmap string string;
  params : list (string * number);
  data : Body
}.

Inductive Reply (A : Type) :=
  | Fulfilled (payload_ : A)
  | Rejected (status_ : option Z) (detail_ : option string).
Arguments Fulfilled {A} _.
Arguments Rejected {A} _ _.

(** The server, as seen from one call: it answers the request it gets. *)
Definition Server (A : Type) := Request -> Reply A.

Record LoginData := mkLoginData {
  access_token : string;
  data_user : User
}.

Record LoginResult := mkLoginResult {
  accessToken : string;
  result_user : User
}.

Record SystemStatus := mkSystemStatus {
  health : string;
  database : string;
  cache : string
}.

(** ** Redux store *)

Record ExecutionsState := mkExecutionsState {
  items : list ExecutionResponse;
  currentExecution : option ExecutionResponse;
  executions_isLoading : bool;
  executions_error : option string
}.

Record UiState := mkUiState {
  theme : string;
  sidebarOpen : bool;
  notifications : list (string * string * string)
}.

Record RootState := mkRootState {
  auth : AuthState;
  executions : ExecutionsState;
  ui : UiState
}.

Definition initialState (localStorage : gmap string string) : RootState :=
  {| auth :=
       {| user := None;
          token := or_null (localStorage !! "token");
          isAuthenticated := double_bang (localStorage !! "token");
          isLoading := false;
          error := None |};
     executions :=
       {| items := [];
          currentExecution := None;
          executions_isLoading := false;
          executions_error := None |};
     ui :=
       {| theme := default "light" (or_null (localStorage !! "theme"));
          sidebarOpen := true;
          notifications := [] |} |}.

Inductive Payload :=
  | NoPayload
  | LoginPayload (user_ : User) (token_ : string)
  | ErrorPayload (error_ : string)
  | ItemsPayload (items_ : list ExecutionResponse)
  | ExecutionPayload (execution_ : option ExecutionResponse)
  | LoadingPayload (isLoading_ : bool).

Record Action := mkAction {
  type : string;
  payload : Payload
}.

Module authSlice.
Definition login (u : User) (t : string) : Action :=
  {| type := "auth/login"; payload := LoginPayload u t |}.
Definition logout : Action :=
  {| type := "auth/logout"; payload := NoPayload |}.
Definition setError (e : string) : Action :=
  {| type := "auth/setError"; payload := ErrorPayload e |}.
End authSlice.

Module executionsSlice.
Definition setExecutions (l : list ExecutionResponse) : Action :=
  {| type := "executions/setExecutions"; payload := ItemsPayload l |}.
Definition addExecution (e : ExecutionResponse) : Action :=
  {| type := "executions/addExecution"; payload := ExecutionPayload (Some e) |}.
Definition setCurrentExecution (e : option ExecutionResponse) : Action :=
  {| type := "executions/setCurrentExecution"; payload := ExecutionPayload e |}.
Definition setLoading (l : bool) : Action :=
  {| type := "executions/setLoading"; payload := LoadingPayload l |}.
End executionsSlice.

(** ** The browser tab

    Everything the module-level code and the event handlers can touch: the
    private [token] field of the one [apiClient], [window.localStorage],
    [window.location.href], the requests sent so far (oldest first), the
    state the Redux store was created with and the actions dispatched to
    it since. *)

Record Browser := mkBrowser {
  client_token : option string;
  localStorage : gmap string string;
  location_href : string;
  sent : list Request;
  store_created : RootState;
  dispatched : list Action
}.

Definition set_client_token (t : option string) (b : Browser) : Browser :=
  mkBrowser t (localStorage b) (location_href b) (sent b)
            (store_created b) (dispatched b).

Definition set_localStorage (ls : gmap string string) (b : Browser) : Browser :=
  mkBrowser (client_token b) ls (location_href b) (sent b)
            (store_created b) (dispatched b).

Definition set_location_href (h : string) (b : Browser) : Browser :=
  mkBrowser (client_token b) (localStorage b) h (sent b)
            (store_created b) (dispatched b).

Definition push_sent (r : Request) (b : Browser) : Browser :=
  mkBrowser (client_token b) (localStorage b) (location_href b)
            (sent b ++ [r]) (store_created b) (dispatched b).

Definition dispatch (a : Action) (b : Browser) : Browser :=
  mkBrowser (client_token b) (localStorage b) (location_href b) (sent b)
            (store_created b) (dispatched b ++ [a]).

(** Loading the page evaluates the module again: a new [ApiClient] whose
    [token] field is [null], and a store created from [initialState].
    [localStorage] and the server's history persist. *)
Definition pageLoad (b : Browser) : Browser :=
  mkBrowser None (localStorage b) (location_href b) (sent b)
            (initialState (localStorage b)) [].

(** The store's current state under a reducer: the actions folded over the
    state it was created with. *)
Definition storeState (reducer : RootState -> Action -> RootState)
    (b : Browser) : RootState :=
  foldl reducer (store_created b) (dispatched b).

(** ** ApiClient *)

Definition set_header (k v : string) (config : Request) : Request :=
  mkRequest (method config) (url config) (<[k := v]> (headers config))
            (params config) (data config).

Definition axios_create (m : Method) (u : string)
    (ps : list (string * number)) (d : Body) : Request :=
  mkRequest m u {[ "Content-Type" := "application/json" ]} ps d.

(** [interceptors.request.use]: add the token to the request. *)
Definition requestInterceptor (this_token : option string) (config : Request)
  : Request :=
  match this_token with
  | Some t =>
      if truthy t then set_header "Authorization" ("Bearer " ++ t) config
      else config
  | None => config
  end.

(** [interceptors.response.use], rejection branch: on 401 the token is
    dropped and the tab is sent to the login page. *)
Definition responseInterceptor (status_ : option Z) (b : Browser) : Browser :=
  if bool_decide (status_ = Some 401)
  then set_location_href "/login" (set_client_token None b)
  else b.

Definition client_request {A} (config : Request) (server : Server A)
    (b : Browser) : Browser * Reply A :=
  let config' := requestInterceptor (client_token b) config in
  let b1 := push_sent config' b in
  match server config' with
  | Fulfilled d => (b1, Fulfilled d)
  | Rejected st dt => (responseInterceptor st b1, Rejected st dt)
  end.

Definition setToken (t : string) (b : Browser) : Browser :=
  set_localStorage (<["token" := t]> (localStorage b))
                   (set_client_token (Some t) b).

Definition getToken (b : Browser) : option string :=
  match or_null (client_token b) with
  | Some t => Some t
  | None => localStorage b !! "token"
  end.

Definition login (username_ password_ : string) (server : Server LoginData)
    (b : Browser) : Browser * Reply LoginResult :=
  match client_request
          (axios_create POST "/auth/login" [] (LoginBody username_ password_))
          server b with
  | (b1, Fulfilled d) =>
      (setToken (access_token d) b1,
       Fulfilled {| accessToken := access_token d; result_user := data_user d |})
  | (b1, Rejected st dt) => (b1, Rejected st dt)
  end.

Definition logout (b : Browser) : Browser * Reply unit :=
  (set_localStorage (delete "token" (localStorage b))
                    (set_client_token None b),
   Fulfilled tt).

Definition refreshToken (server : Server string) (b : Browser)
  : Browser * Reply string :=
  match client_request (axios_create POST "/auth/refresh" [] NoBody) server b with
  | (b1, Fulfilled t) => (setToken t b1, Fulfilled t)
  | (b1, Rejected st dt) => (b1, Rejected st dt)
  end.

Definition executeAgent (request_ : ExecutionRequest)
    (server : Server ExecutionResponse) (b : Browser)
  : Browser * Reply ExecutionResponse :=
  client_request (axios_create POST "/api/v1/execute" [] (ExecuteBody request_))
                 server b.

(** [limit] and [offset] default to 50 and 0 when the caller omits them. *)
Definition getExecutionHistory (limit offset : option number)
    (server : Server (list ExecutionResponse)) (b : Browser)
  : Browser * Reply (list ExecutionResponse) :=
  client_request
    (axios_create GET "/api/v1/executions"
                  [("limit", default 50 limit); ("offset", default 0 offset)]
                  NoBody)
    server b.

Definition getMetrics (server : Server string) (b : Browser)
  : Browser * Reply string :=
  client_request (axios_create GET "/metrics" [] NoBody) server b.

Definition getSystemStatus (server : Server SystemStatus) (b : Browser)
  : Browser * Reply SystemStatus :=
  client_request (axios_create GET "/health/detailed" [] NoBody) server b.

(** ** Login page *)

Record LoginPageState := mkLoginPageState {
  login_username : string;
  login_password : string;
  login_error : string;
  login_isLoading : bool
}.

Definition handleLogin (server : Server LoginData) (st : LoginPageState)
    (b : Browser) : LoginPageState * Browser :=
  match login (login_username st) (login_password st) server b with
  | (b1, Fulfilled r) =>
      (mkLoginPageState (login_username st) (login_password st)
                        EmptyString false,
       set_location_href "/dashboard"
         (dispatch (authSlice.login (result_user r) (accessToken r)) b1))
  | (b1, Rejected _ dt) =>
      (mkLoginPageState (login_username st) (login_password st)
                        (default "Login failed" (or_null dt)) false,
       b1)
  end.

(** ** Execution form *)

Record ExecutionFormState := mkExecutionFormState {
  form_taskDescription : string;
  form_priority : TaskPriority;
  form_isLoading : bool;
  form_error : string;
  form_result : option ExecutionResponse
}.

Definition ExecutionForm_initial : ExecutionFormState :=
  mkExecutionFormState EmptyString MEDIUM false EmptyString None.

(** The [minLength] and [maxLength] attributes of the textarea. *)
Definition textarea_minLength : Z := 10.
Definition textarea_maxLength : Z := 5000.

(** The text of a JavaScript string is held here as its UTF-8 bytes: a
    byte below 128 is a character of its own, a byte from 128 to 191
    continues a character, a byte from 192 to 239 starts a character of
    the basic plane, and a byte from 240 starts one beyond it, which
    UTF-16 writes as a surrogate pair. *)
Definition utf16_units (a : Ascii.ascii) : Z :=
  let n := Z.of_nat (Ascii.nat_of_ascii a) in
  if n <? 128 then 1
  else if n <? 192 then 0
  else if n <? 240 then 1
  else 2.

(** [s.length]: the number of UTF-16 code units of the text. *)
Fixpoint string_length (s : string) : Z :=
  match s with
  | EmptyString => 0
  | String a rest => utf16_units a + string_length rest
  end.

(** The [disabled] attribute of the submit button. *)
Definition submit_disabled (st : ExecutionFormState) : bool :=
  form_isLoading st || (string_length (form_taskDescription st) <? 10).

Definition handleSubmit (server : Server ExecutionResponse)
    (st : ExecutionFormState) (b : Browser) : ExecutionFormState * Browser :=
  let request_ :=
    mkExecutionRequest (form_taskDescription st) (form_priority st)
                       None None None in
  match executeAgent request_ server b with
  | (b1, Fulfilled response) =>
      (mkExecutionFormState EmptyString (form_priority st) false EmptyString
                            (Some response),
       dispatch (executionsSlice.addExecution response) b1)
  | (b1, Rejected _ dt) =>
      (mkExecutionFormState (form_taskDescription st) (form_priority st) false
                            (default "Execution failed" (or_null dt))
                            (form_result st),
       b1)
  end.

(** ** Dashboard *)

(** The effect run on mount: load the system status. *)
Definition Dashboard_mount (server : Server SystemStatus) (b : Browser)
  : option SystemStatus * Browser :=
  match getSystemStatus server b with
  | (b1, Fulfilled s) => (Some s, b1)
  | (b1, Rejected _ _) => (None, b1)
  end.

(** The [onClick] handler of the Logout button. *)
Definition Dashboard_logout_click (b : Browser) : Browser := fst (logout b).

Record HistoryRow := mkHistoryRow {
  row_executionId : string;
  row_engine : ExecutionEngine;
  row_executionTime : number;
  row_costUsd : number
}.

Definition history_row (e : ExecutionResponse) : HistoryRow :=
  mkHistoryRow (executionId e) (engine e) (executionTime e) (costUsd e).

(** The "Execution History (Admin)" table: [None] when it is not rendered,
    otherwise its rows. *)
Definition Dashboard_history (st : RootState) : option (list HistoryRow) :=
  match user (auth st) with
  | Some u =>
      if decide (role u = ADMIN)
      then Some (map history_row (take 10 (items (executions st))))
      else None
  | None => None
  end.

(** ** App routes

    The route table of [App]: [/login] shows the login page, [/dashboard]
    is wrapped in a [ProtectedRoute] with no [requiredRole], and [/]
    redirects to [/dashboard].  Which of the three entries a location
    matches is decided by the router library; [App] takes that entry, or
    none.  A [Navigate] to [/login] ends on the login page. *)

Inductive RoutePath := path_login | path_dashboard | path_root.

Inductive Screen := LoginScreen | DashboardScreen | AccessDeniedScreen | NoMatch.

Definition App (matched : option RoutePath) (st : RootState) : Screen :=
  match matched with
  | Some path_login => LoginScreen
  | Some path_dashboard | Some path_root =>
      match ProtectedRoute None (auth st) with
      | Children => DashboardScreen
      | AccessDenied => AccessDeniedScreen
      | NavigateToLogin => LoginScreen
      end
  | None => NoMatch
  end.

(** ** The routing and dispatch core behind [/api/v1/execute]

    The back end ([src/backend.py] in the project's own inventory) is not
    among the sources; only its caller, [ApiClient.executeAgent], is.  This
    module follows sections 3, 4, 6 and 7 of the specification.  The three
    engines of the specification are the members of [ExecutionEngine]:
    single-pass [direct], multi-role [team] (CrewAI) and iterative
    [dialogue] (AutoGen). *)

Module Core.

(** Modelled from the spec: the names the specification gives the three
    engines. *)
Abbreviation direct := DIRECT_LLM (only parsing).
Abbreviation team := CREWAI (only parsing).
Abbreviation dialogue := AUTOGEN (only parsing).

(** Modelled from the spec: Identity (section 3); the back end's user
    model is missing. *)
Record Identity := mkIdentity {
  identity_id : string;
  identity_username : string;
  identity_role : UserRole;
  active : bool
}.

(** Modelled from the spec: the static rank table of the Access Authorizer
    (section 4.2), [service_account < user < analyst < admin]; the back
    end's table is missing. *)
Definition rank (r : UserRole) : Z :=
  match r with
  | SERVICE_ACCOUNT => 0
  | USER => 1
  | ANALYST => 2
  | ADMIN => 3
  end.

(** Modelled from the spec: the two ways [authorize] fails (section
    4.2). *)
Inductive AuthorizationFailure := InsufficientRole | InactiveAccount.

(** Modelled from the spec: [authorize(Identity, requiredRole)] (section
    4.2); the back end's permission check is missing. *)
Definition authorize (i : Identity) (requiredRole : UserRole)
  : option AuthorizationFailure :=
  if negb (active i) then Some InactiveAccount
  else if rank (identity_role i) <? rank requiredRole then Some InsufficientRole
  else None.

(** Modelled from the spec: ValidationError (section 7). *)
Inductive ValidationError := DescriptionTooShort | DescriptionTooLong.

(** Modelled from the spec: the length of a text in characters, the
    measure of the description bounds (section 3); the back end's own
    measure is missing.  Every byte of the UTF-8 text that does not
    continue a character starts one. *)
Fixpoint character_count (s : string) : Z :=
  match s with
  | EmptyString => 0
  | String a rest =>
      (if (128 <=? Z.of_nat (Ascii.nat_of_ascii a))
          && (Z.of_nat (Ascii.nat_of_ascii a) <? 192)
       then 0 else 1)
      + character_count rest
  end.

(** Modelled from the spec: the description length bounds of
    ExecutionRequest, 10 to 5000 characters (sections 3 and 7); the back
    end's request validation is missing. *)
Definition validate (r : ExecutionRequest) : option ValidationError :=
  if character_count (taskDescription r) <? 10 then Some DescriptionTooShort
  else if 5000 <? character_count (taskDescription r)
  then Some DescriptionTooLong
  else None.

(** *** Task complexity scorer *)

(** Modelled from the spec: the tunable policy of the scorer (section
    4.3), which the specification leaves open: bucket boundaries for the
    description length, one weight per signal, the reading of resource hints
    in the context, and the range the result is clamped to.  A weight says
    how much its signal counts in the sum; it is a natural number. *)
Record ScorePolicy := mkScorePolicy {
  length_buckets : list Z;
  w_length : N;
  w_context : N;
  w_priority : N;
  w_hints : N;
  resource_hints : list (string * string) -> Z;
  score_min : Z;
  score_max : Z
}.

(** Modelled from the spec: the description length bucket, the number of
    boundaries the length has reached. *)
Definition length_bucket (boundaries : list Z) (len : Z) : Z :=
  Z.of_nat (length (filter (fun b => b <= len) boundaries)).

(** Modelled from the spec: the priority signal, in the order
    [low < medium < high < urgent]. *)
Definition priority_signal (p : TaskPriority) : Z :=
  match p with
  | LOW => 0
  | MEDIUM => 1
  | HIGH => 2
  | URGENT => 3
  end.

(** Modelled from the spec: presence and size of the structured context. *)
Definition context_size (c : option (list (string * string))) : Z :=
  match c with
  | Some kvs => Z.of_nat (length kvs)
  | None => 0
  end.

(** Modelled from the spec: clamping to the score range. *)
Definition clamp (lo hi x : Z) : Z := Z.max lo (Z.min hi x).

(** Modelled from the spec: [score(ExecutionRequest)] (section 4.3), the
    weighted sum of the signals clamped to the range; the back end's
    complexity calculation is missing. *)
Definition score (P : ScorePolicy) (r : ExecutionRequest) : Z :=
  clamp (score_min P) (score_max P)
    (Z.of_N (w_length P)
     * length_bucket (length_buckets P) (character_count (taskDescription r))
     + Z.of_N (w_context P) * context_size (context r)
     + Z.of_N (w_priority P) * priority_signal (priority r)
     + Z.of_N (w_hints P) * resource_hints P (default [] (context r))).

(** *** Resource and cost evaluator, routing decision engine *)

(** Modelled from the spec: one entry of the evaluator's output (section
    4.4). *)
Record Estimate := mkEstimate {
  available : bool;
  estimated_cost_usd : Z;
  estimated_latency : Z
}.

(** Modelled from the spec: [mapping[engine -> estimate]] over the
    candidate engines (section 4.4). *)
Definition EvaluatorOutput := ExecutionEngine -> option Estimate.

(** Modelled from the spec: the rationale attached to a decision (section
    3). *)
Record Rationale := mkRationale {
  complexity : Z;
  cost_estimate : Z;
  resource_state : list ExecutionEngine
}.

(** Modelled from the spec: RoutingDecision (section 3). *)
Record RoutingDecision := mkRoutingDecision {
  decision_engine : ExecutionEngine;
  rationale : Rationale
}.

(** Modelled from the spec: RoutingError (section 7). *)
Inductive RoutingError := NoEngineAvailable.

(** Modelled from the spec: the thresholds and the default budget, which
    the specification leaves to configuration (section 9). *)
Record RoutingPolicy := mkRoutingPolicy {
  low_threshold : Z;
  high_threshold : Z;
  default_budget : Z
}.

(** Modelled from the spec: the engines by ascending identifier, the last
    tie-break of section 4.5. *)
Definition engines_ascending : list ExecutionEngine := [dialogue; direct; team].

(** Modelled from the spec: an engine is a live candidate when the
    evaluator lists it and does not mark it unavailable. *)
Definition is_available (out : EvaluatorOutput) (e : ExecutionEngine) : bool :=
  match out e with
  | Some est => available est
  | None => false
  end.

(** Modelled from the spec: policy step 1, eliminate the engines marked
    unavailable. *)
Definition remaining (out : EvaluatorOutput) : list ExecutionEngine :=
  filter (fun e => is_available out e = true) engines_ascending.

(** Modelled from the spec: the estimated cost of an engine. *)
Definition cost_of (out : EvaluatorOutput) (e : ExecutionEngine) : Z :=
  match out e with
  | Some est => estimated_cost_usd est
  | None => 0
  end.

(** Modelled from the spec: the estimated latency of an engine. *)
Definition latency_of (out : EvaluatorOutput) (e : ExecutionEngine) : Z :=
  match out e with
  | Some est => estimated_latency est
  | None => 0
  end.

(** Modelled from the spec: policy steps 2 to 4, the engine the request's
    tier prefers. *)
Definition preferred (pol : RoutingPolicy) (complexity_ : Z)
    (priority_ : TaskPriority) (budget_hint : option Z)
    (out : EvaluatorOutput) : ExecutionEngine :=
  if bool_decide (priority_ = URGENT) || (complexity_ <? low_threshold pol)
  then direct
  else if (high_threshold pol <? complexity_)
          && (cost_of out team <=? default (default_budget pol) budget_hint)
  then team
  else dialogue.

(** Modelled from the spec: policy step 5, lower cost, then lower
    latency. *)
Definition cheaper (out : EvaluatorOutput) (a b : ExecutionEngine) : bool :=
  (cost_of out a <? cost_of out b)
  || ((cost_of out a =? cost_of out b)
      && (latency_of out a <? latency_of out b)).

(** Modelled from the spec: the tie-break over a list in ascending
    identifier order; an equal later engine never replaces an earlier one. *)
Fixpoint tie_break (out : EvaluatorOutput) (best : ExecutionEngine)
    (rest : list ExecutionEngine) : ExecutionEngine :=
  match rest with
  | [] => best
  | e :: rest' =>
      tie_break out (if cheaper out e best then e else best) rest'
  end.

(** Modelled from the spec: [decide] (section 4.5); the back end's router
    is missing.  The preferred engine is taken when it remains; otherwise
    the tie-break order picks among those that do. *)
Definition decide (pol : RoutingPolicy) (complexity_ : Z)
    (priority_ : TaskPriority) (budget_hint : option Z)
    (out : EvaluatorOutput) : RoutingDecision + RoutingError :=
  match remaining out with
  | [] => inr NoEngineAvailable
  | e0 :: rest =>
      let p := preferred pol complexity_ priority_ budget_hint out in
      let chosen :=
        if bool_decide (p ∈ remaining out) then p else tie_break out e0 rest in
      inl {| decision_engine := chosen;
             rationale := {| complexity := complexity_;
                             cost_estimate := cost_of out chosen;
                             resource_state := remaining out |} |}
  end.

(** *** Execution dispatcher *)

(** Modelled from the spec: the states of an ExecutionResult (section
    4.6). *)
Inductive Status := pending | running | succeeded | failed | timed_out.

(** Modelled from the spec: ExecutionResult (section 3). *)
Record ExecutionResult := mkExecutionResult {
  execution_id : string;
  result_status : Status;
  result_text : option string;
  duration_seconds : Z;
  result_engine : ExecutionEngine;
  tokens_used : Z;
  cost_usd : Z;
  created_at : Z
}.

(** Modelled from the spec: what one call into an engine comes back with
    (section 4.6). *)
Inductive Outcome :=
  | Completed (text : string)
  | TransientFailure
  | PermanentFailure
  | TimedOut.

(** Modelled from the spec: what the core consumes and does not own
    (sections 4.4, 4.6 and 6): the policies, the evaluator's view of the
    load, the engines, the retry bound, and the identifiers, clock and
    meters results are stamped with. *)
Record Environment := mkEnvironment {
  score_policy : ScorePolicy;
  routing_policy : RoutingPolicy;
  budget_hint_of : option (list (string * string)) -> option Z;
  evaluate : Z -> EvaluatorOutput;
  run_engine : ExecutionEngine -> ExecutionRequest -> nat -> Outcome;
  retry_bound : nat;
  fresh_id : string;
  clock : Z;
  meter : ExecutionEngine -> ExecutionRequest -> Z * Z * Z
}.

(** Modelled from the spec: the dispatcher's retry loop (section 4.6):
    transient failures are retried up to the bound, the other outcomes are
    terminal at once. *)
Fixpoint attempts (env : Environment) (e : ExecutionEngine)
    (r : ExecutionRequest) (retries_left attempt : nat)
  : Status * option string :=
  match run_engine env e r attempt with
  | Completed text => (succeeded, Some text)
  | TimedOut => (timed_out, None)
  | PermanentFailure => (failed, None)
  | TransientFailure =>
      match retries_left with
      | O => (failed, None)
      | S k => attempts env e r k (S attempt)
      end
  end.

(** Modelled from the spec: [dispatch(RoutingDecision, ExecutionRequest)]
    (section 4.6); the back end's dispatcher is missing.  It always returns
    a result object. *)
Definition dispatch (env : Environment) (d : RoutingDecision)
    (r : ExecutionRequest) : ExecutionResult :=
  let e := decision_engine d in
  let '(st, text) := attempts env e r (retry_bound env) 0 in
  let '(dur, toks, cost) := meter env e r in
  mkExecutionResult (fresh_id env) st text dur e toks cost (clock env).

(** *** The request pipeline *)

(** Modelled from the spec: the phases of one request (sections 2 and 5),
    and the length check at the boundary (sections 3 and 7). *)
Inductive Phase :=
  | Authenticate | Authorize | Validate | Score | Evaluate | Decide
  | Dispatch | Record_.

(** Modelled from the spec: the outcomes of [POST /api/v1/execute]
    (section 6). *)
Inductive Response :=
  | Unauthenticated
  | Forbidden (why : AuthorizationFailure)
  | Unprocessable (why : ValidationError)
  | ServiceUnavailable (why : RoutingError)
  | Ok (r : ExecutionResult).

(** Modelled from the spec: the status codes of [POST /api/v1/execute]
    (section 6). *)
Definition status_code (r : Response) : Z :=
  match r with
  | Unauthenticated => 401
  | Forbidden _ => 403
  | Unprocessable _ => 422
  | ServiceUnavailable _ => 503
  | Ok _ => 200
  end.

(** Modelled from the spec: the result a response creates, if any. *)
Definition created (r : Response) : option ExecutionResult :=
  match r with
  | Ok res => Some res
  | _ => None
  end.

(** Modelled from the spec: the routing decision for a request: score,
    evaluate, decide (sections 4.3 to 4.5), on the policies and the load the
    environment holds. *)
Definition routing_decision (env : Environment) (r : ExecutionRequest)
  : RoutingDecision + RoutingError :=
  decide (routing_policy env) (score (score_policy env) r) (priority r)
         (budget_hint_of env (context r))
         (evaluate env (score (score_policy env) r)).

(** Modelled from the spec: [POST /api/v1/execute] (sections 2, 3, 5, 6
    and 7); the back end's endpoint is missing.  The description bounds are
    part of ExecutionRequest itself (section 3): a submission outside them
    is refused at the boundary as a ValidationError and never becomes a
    request.  [caller] is what verifying the credential gave.  The phases of
    section 5 then run strictly in order, the minimum role is [user], every
    outcome is reported to the recorder, and the phases that ran are
    returned with the response. *)
Definition execute (env : Environment) (caller : option Identity)
    (r : ExecutionRequest) : list Phase * Response :=
  match validate r with
  | Some why => ([Validate; Record_], Unprocessable why)
  | None =>
      match caller with
      | None => ([Validate; Authenticate; Record_], Unauthenticated)
      | Some i =>
          match authorize i USER with
          | Some why =>
              ([Validate; Authenticate; Authorize; Record_], Forbidden why)
          | None =>
              match routing_decision env r with
              | inr why =>
                  ([Validate; Authenticate; Authorize; Score; Evaluate; Decide;
                    Record_],
                   ServiceUnavailable why)
              | inl d =>
                  ([Validate; Authenticate; Authorize; Score; Evaluate; Decide;
                    Dispatch; Record_],
                   Ok (dispatch env d r))
              end
          end
      end
  end.

(** *** The endpoint as the client sees it *)

(** Modelled from the spec: the bearer credential of a request (section
    6), the [Authorization] header without its [Bearer ] prefix. *)
Fixpoint strip_prefix (p s : string) : option string :=
  match p with
  | EmptyString => Some s
  | String a p' =>
      match s with
      | EmptyString => None
      | String b s' => if bool_decide (a = b) then strip_prefix p' s' else None
      end
  end.

(** Modelled from the spec: reading the bearer credential off the
    headers. *)
Definition bearer (hs : gmap string string) : option string :=
  hs !! "Authorization" ≫= strip_prefix "Bearer ".

(** Modelled from the spec: the status names of ExecutionResult. *)
Definition Status_value (s : Status) : string :=
  match s with
  | pending => "pending"
  | running => "running"
  | succeeded => "succeeded"
  | failed => "failed"
  | timed_out => "timed_out"
  end.

(** Modelled from the spec: the stable kind tag of an error (section
    7). *)
Definition kind_tag (r : Response) : string :=
  match r with
  | Unauthenticated => "AuthenticationError"
  | Forbidden _ => "AuthorizationError"
  | Unprocessable DescriptionTooShort => "ValidationError.DescriptionTooShort"
  | Unprocessable DescriptionTooLong => "ValidationError.DescriptionTooLong"
  | ServiceUnavailable _ => "RoutingError.NoEngineAvailable"
  | Ok _ => "Ok"
  end.

(** Modelled from the spec: an ExecutionResult as the [ExecutionResponse]
    the client decodes. *)
Definition to_ExecutionResponse (r : ExecutionResult) : ExecutionResponse :=
  mkExecutionResponse (execution_id r) (Status_value (result_status r))
                      (result_text r) (duration_seconds r) (result_engine r)
                      (tokens_used r) (cost_usd r) (created_at r).

(** Modelled from the spec: the endpoint behind [executeAgent] (section
    6); the back end's route handler is missing.  The credential is
    verified, the pipeline runs, and an error status rejects the client's
    promise. *)
Definition api_execute (env : Environment) (verify : string -> option Identity)
  : Server ExecutionResponse :=
  fun rq =>
    match data rq with
    | ExecuteBody r =>
        let resp := snd (execute env (bearer (headers rq) ≫= verify) r) in
        match resp with
        | Ok res => Fulfilled (to_ExecutionResponse res)
        | _ => Rejected (Some (status_code resp)) (Some (kind_tag resp))
        end
    | _ => Rejected (Some 422) None
    end.

End Core.

(** ** Runs of API calls

    The calls a page can make on the one [apiClient], each with the server
    that answers it, and what a sequence of them does to the tab. *)

Inductive ApiCall :=
  | call_login (username_ password_ : string) (server : Server LoginData)
  | call_logout
  | call_refreshToken (server : Server string)
  | call_executeAgent (request_ : ExecutionRequest)
                      (server : Server ExecutionResponse)
  | call_getExecutionHistory (limit offset : option number)
                             (server : Server (list ExecutionResponse))
  | call_getMetrics (server : Server string)
  | call_getSystemStatus (server : Server SystemStatus).

Definition perform (c : ApiCall) (b : Browser) : Browser :=
  match c with
  | call_login u p s => fst (login u p s b)
  | call_logout => fst (logout b)
  | call_refreshToken s => fst (refreshToken s b)
  | call_executeAgent r s => fst (executeAgent r s b)
  | call_getExecutionHistory l o s => fst (getExecutionHistory l o s b)
  | call_getMetrics s => fst (getMetrics s b)
  | call_getSystemStatus s => fst (getSystemStatus s b)
  end.

Definition perform_all (cs : list ApiCall) (b : Browser) : Browser :=
  foldl (fun b' c => perform c b') b cs.

(** The config a call hands to axios, before the request interceptor. *)
Definition config_of (c : ApiCall) : option Request :=
  match c with
  | call_login u p _ => Some (axios_create POST "/auth/login" [] (LoginBody u p))
  | call_logout => None
  | call_refreshToken _ => Some (axios_create POST "/auth/refresh" [] NoBody)
  | call_executeAgent r _ =>
      Some (axios_create POST "/api/v1/execute" [] (ExecuteBody r))
  | call_getExecutionHistory l o _ =>
      Some (axios_create GET "/api/v1/executions"
                         [("limit", default 50 l); ("offset", default 0 o)]
                         NoBody)
  | call_getMetrics _ => Some (axios_create GET "/metrics" [] NoBody)
  | call_getSystemStatus _ => Some (axios_create GET "/health/detailed" [] NoBody)
  end.

Definition reply_status {A} (r : Reply A) : option Z :=
  match r with
  | Fulfilled _ => None
  | Rejected st _ => st
  end.

(** The error status the server answers a call with, given the request the
    client really sends in state [b]. *)
Definition answer_status (c : ApiCall) (b : Browser) : option Z :=
  match config_of c with
  | None => None
  | Some config =>
      let rq := requestInterceptor (client_token b) config in
      match c with
      | call_login _ _ s => reply_status (s rq)
      | call_logout => None
      | call_refreshToken s => reply_status (s rq)
      | call_executeAgent _ s => reply_status (s rq)
      | call_getExecutionHistory _ _ s => reply_status (s rq)
      | call_getMetrics s => reply_status (s rq)
      | call_getSystemStatus s => reply_status (s rq)
      end
  end.

(** Calls that go through [setToken] or clear the token themselves. *)
Definition touches_token (c : ApiCall) : bool :=
  match c with
  | call_login _ _ _ | call_logout | call_refreshToken _ => true
  | _ => false
  end.

(** A run in which no call touches the token and no answer is a 401. *)
Fixpoint quiet_run (cs : list ApiCall) (b : Browser) : bool :=
  match cs with
  | [] => true
  | c :: cs' =>
      negb (touches_token c)
      && negb (bool_decide (answer_status c b = Some 401))
      && quiet_run cs' (perform c b)
  end.

(** A run without [login], [refreshToken] (the callers of [setToken]). *)
Definition no_setToken (cs : list ApiCall) : bool :=
  forallb (fun c => match c with
                    | call_login _ _ _ | call_refreshToken _ => false
                    | _ => true
                    end) cs.

(** The requests a run added to the wire. *)
Definition newly_sent (before after : Browser) : list Request :=
  drop (length (sent before)) (sent after).

Definition authorization (rq : Request) : option string :=
  headers rq !! "Authorization".

(** ** Field updates and sample data used in the statements below *)

Definition with_isActive (a : bool) (u : User) : User :=
  mkUser (id u) (username u) (email u) (role u) a (createdAt u) (lastLogin u).

Definition with_user (u : option User) (a : AuthState) : AuthState :=
  mkAuthState u (token a) (isAuthenticated a) (isLoading a) (error a).

Definition with_taskDescription (d : string) (r : ExecutionRequest)
  : ExecutionRequest :=
  mkExecutionRequest d (priority r) (context r) (maxTokens r) (temperature r).

Definition with_priority (p : TaskPriority) (r : ExecutionRequest)
  : ExecutionRequest :=
  mkExecutionRequest (taskDescription r) p (context r) (maxTokens r)
                     (temperature r).

Definition signed_in (u : User) (t : string) : AuthState :=
  mkAuthState (Some u) (Some t) true false None.

Definition sample_user (r : UserRole) (a : bool) : User :=
  mkUser "u-1" "ada" "ada@example.org" r a 0 None.

Definition sample_execution (n : string) (e : ExecutionEngine)
  : ExecutionResponse :=
  mkExecutionResponse n "succeeded" (Some "done") 2 e 120 3 0.

Definition blank_tab : Browser :=
  mkBrowser None ∅ "/login" [] (initialState ∅) [].

(** A description shorter than 10 or longer than 5000 characters. *)
Definition out_of_bounds (d : string) : Prop :=
  Core.character_count d < 10 ∨ 5000 < Core.character_count d.

(** The phases that do scoring or dispatch work. *)
Definition work_phases : list Core.Phase :=
  [Core.Score; Core.Evaluate; Core.Decide; Core.Dispatch].

Definition sample_policy : Core.ScorePolicy :=
  Core.mkScorePolicy [50; 500; 2000] 2 1 3 1 (fun _ => 0) 0 10.

Definition all_available : Core.EvaluatorOutput :=
  fun e =>
    Some (match e with
          | DIRECT_LLM => Core.mkEstimate true 1 2
          | CREWAI => Core.mkEstimate true 9 30
          | AUTOGEN => Core.mkEstimate true 5 20
          end).

Definition sample_env : Core.Environment :=
  Core.mkEnvironment sample_policy (Core.mkRoutingPolicy 3 7 100)
                     (fun _ => None) (fun _ => all_available)
                     (fun _ _ _ => Core.Completed "done") 2 "x-1" 0
                     (fun _ _ => (1, 10, 1)).

Definition sample_identity (r : UserRole) (a : bool) : Core.Identity :=
  Core.mkIdentity "u-1" "ada" r a.

Definition token_of_ada (t : string) : option Core.Identity :=
  if bool_decide (t = "abc") then Some (sample_identity USER true) else None.

(** Servers with a fixed answer. *)
Definition login_accepts (t : string) : Server LoginData :=
  fun _ => Fulfilled (mkLoginData t (sample_user USER true)).

Definition answers {A} (x : A) : Server A := fun _ => Fulfilled x.

Definition refuses {A} (code : Z) : Server A :=
  fun _ => Rejected (Some code) None.

Definition healthy : SystemStatus := mkSystemStatus "healthy" "healthy" "healthy".

(** The [Authorization] header the request interceptor writes for a token
    field. *)
Definition bearer_of (tok : option string) : option string :=
  (fun t => "Bearer " ++ t) <$> or_null tok.

Definition is_logout (c : ApiCall) : bool :=
  match c with
  | call_logout => true
  | _ => false
  end.

(** ** Dashboard status cards

    The three cards the dashboard renders once [systemStatus] is set, each
    with the text colour class its template picks. *)

Inductive Colour := text_green_600 | text_yellow_600 | text_red_600.

Record Card := mkCard {
  card_title : string;
  card_text : string;
  card_colour : Colour
}.

Definition status_cards (systemStatus : option SystemStatus) : list Card :=
  match systemStatus with
  | None => []
  | Some s =>
      [ mkCard "System Status" (health s)
               (if bool_decide (health s = "healthy")
                then text_green_600 else text_yellow_600);
        mkCard "Database" (database s)
               (if bool_decide (database s = "healthy")
                then text_green_600 else text_red_600);
        mkCard "Cache" (cache s)
               (if bool_decide (cache s = "healthy")
                then text_green_600 else text_red_600) ]
  end.

(** ** Priority select

    [Object.values(TaskPriority)] mapped to options whose key and value are
    the enum value and whose label is
    [p.charAt(0).toUpperCase() + p.slice(1)].  The enum values are ASCII,
    where [toUpperCase] moves a to z up by 32 and leaves the rest. *)

Definition toUpperCase_ascii (a : Ascii.ascii) : Ascii.ascii :=
  let n := Ascii.nat_of_ascii a in
  if (97 <=? n)%nat && (n <=? 122)%nat then Ascii.ascii_of_nat (n - 32) else a.

Definition capitalise (p : string) : string :=
  match p with
  | EmptyString => EmptyString
  | String a rest => String (toUpperCase_ascii a) rest
  end.

Definition TaskPriority_values : list TaskPriority := [LOW; MEDIUM; HIGH; URGENT].

Record SelectOption := mkSelectOption {
  option_key : string;
  option_value : TaskPriority;
  option_label : string
}.

Definition priority_options : list SelectOption :=
  (fun p => mkSelectOption (TaskPriority_value p) p
                           (capitalise (TaskPriority_value p)))
    <$> TaskPriority_values.

(** ** Events of a tab

    What can happen to the tab: a call on [apiClient], a page load, and the
    handlers of the three components, each with the component state it
    runs in and the server that answers it. *)

Inductive Event :=
  | ev_api (c : ApiCall)
  | ev_pageLoad
  | ev_handleLogin (server : Server LoginData) (st : LoginPageState)
  | ev_handleSubmit (server : Server ExecutionResponse)
                    (st : ExecutionFormState)
  | ev_Dashboard_mount (server : Server SystemStatus)
  | ev_logout_click.

Definition happen (e : Event) (b : Browser) : Browser :=
  match e with
  | ev_api c => perform c b
  | ev_pageLoad => pageLoad b
  | ev_handleLogin s st => snd (handleLogin s st b)
  | ev_handleSubmit s st => snd (handleSubmit s st b)
  | ev_Dashboard_mount s => snd (Dashboard_mount s b)
  | ev_logout_click => Dashboard_logout_click b
  end.

Definition happen_all (es : list Event) (b : Browser) : Browser :=
  foldl (fun b' e => happen e b') b es.

(** The in-memory token, when there is one, is the stored one. *)
Definition token_coherent (b : Browser) : Prop :=
  ∀ t, client_token b = Some t -> localStorage b !! "token" = Some t.

Definition is_fulfilled {A} (r : Reply A) : bool :=
  match r with
  | Fulfilled _ => true
  | Rejected _ _ => false
  end.

(** Whether the server fulfils a call, given the request the client really
    sends in state [b]. *)
Definition answer_fulfilled (c : ApiCall) (b : Browser) : bool :=
  match config_of c with
  | None => true
  | Some config =>
      let rq := requestInterceptor (client_token b) config in
      match c with
      | call_login _ _ s => is_fulfilled (s rq)
      | call_logout => true
      | call_refreshToken s => is_fulfilled (s rq)
      | call_executeAgent _ s => is_fulfilled (s rq)
      | call_getExecutionHistory _ _ s => is_fulfilled (s rq)
      | call_getMetrics s => is_fulfilled (s rq)
      | call_getSystemStatus s => is_fulfilled (s rq)
      end
  end.

(** Events that call [refreshToken]. *)
Definition calls_refreshToken (e : Event) : bool :=
  match e with
  | ev_api (call_refreshToken _) => true
  | _ => false
  end.

(** Events that run [setToken]-calling code: [login] and [refreshToken],
    directly or through the login page. *)
Definition may_setToken (e : Event) : bool :=
  match e with
  | ev_api (call_login _ _ _) | ev_api (call_refreshToken _)
  | ev_handleLogin _ _ => true
  | _ => false
  end.

(** A request that an event can have put on the wire: the config of some
    call, passed through the request interceptor; the config of
    [refreshToken] only if the event calls [refreshToken]. *)
Definition sent_by (e : Event) (rq : Request) : Prop :=
  ∃ tok c config,
    config_of c = Some config
    ∧ rq = requestInterceptor tok config
    ∧ (config = axios_create POST "/auth/refresh" [] NoBody ->
       calls_refreshToken e = true).

(** The paths the client has a method for. *)
Definition endpoints : list string :=
  ["/auth/login"; "/auth/refresh"; "/api/v1/execute"; "/api/v1/executions";
   "/metrics"; "/health/detailed"].

(** The types of the actions the components dispatch. *)
Definition dispatched_type (a : Action) : Prop :=
  type a = "auth/login" ∨ type a = "executions/addExecution".

(** The request [handleSubmit] builds from the form. *)
Definition form_request (st : ExecutionFormState) : ExecutionRequest :=
  mkExecutionRequest (form_taskDescription st) (form_priority st)
                     None None None.

(** ** The role guard *)

Lemma roleHierarchy_order :
  roleHierarchy SERVICE_ACCOUNT < roleHierarchy USER
  ∧ roleHierarchy USER < roleHierarchy ANALYST
  ∧ roleHierarchy ANALYST < roleHierarchy ADMIN.
Proof. cbn. lia. Qed.

Lemma roleHierarchy_inj (r1 r2 : UserRole) :
  roleHierarchy r1 = roleHierarchy r2 -> r1 = r2.
Proof. destruct r1, r2; cbn; intros H; first [reflexivity | discriminate H]. Qed.

Lemma ProtectedRoute_ignores_isActive (r : option UserRole) (a : AuthState)
    (u : User) (flag : bool) :
  ProtectedRoute r (with_user (Some (with_isActive flag u)) a)
  = ProtectedRoute r (with_user (Some u) a).
Proof. reflexivity. Qed.

Lemma ProtectedRoute_children (r : UserRole) (a : AuthState) :
  ProtectedRoute (Some r) a = Children
  <-> isAuthenticated a = true
      ∧ ∃ u, user a = Some u ∧ roleHierarchy r <= roleHierarchy (role u).
Proof.
  unfold ProtectedRoute.
  destruct (isAuthenticated a), (user a) as [u|]; split.
  - intros H. split; [reflexivity|]. exists u. split; [reflexivity|].
    destruct (Z.ltb_spec (roleHierarchy (role u)) (roleHierarchy r));
      [discriminate H | assumption].
  - intros [_ (u' & Hu & Hle)]. injection Hu as <-.
    destruct (Z.ltb_spec (roleHierarchy (role u)) (roleHierarchy r));
      [lia | reflexivity].
  - discriminate.
  - intros [_ (u' & Hu & _)]. discriminate Hu.
  - discriminate.
  - intros [H _]. discriminate H.
  - discriminate.
  - intros [H _]. discriminate H.
Qed.

(** C1 (as stated, refuted): an inactive administrator who is signed in passes
    the guard for a route that requires [user], so the guard does not fail
    for every inactive identity. *)
Lemma C1_inactive_admin_is_let_through :
  ~ (ProtectedRoute (Some USER) (signed_in (sample_user ADMIN false) "t") = Children
     <-> roleHierarchy USER <= roleHierarchy (role (sample_user ADMIN false))
         ∧ isActive (sample_user ADMIN false) = true).
Proof.
  intros [Hto _].
  assert (Hgo : ProtectedRoute (Some USER)
                  (signed_in (sample_user ADMIN false) "t") = Children)
    by reflexivity.
  destruct (Hto Hgo) as [_ Hactive]. discriminate Hactive.
Qed.

(** C1 (amended): for a signed-in user and a required role, [ProtectedRoute]
    renders its children exactly when the user's rank is at least the
    required rank under the fixed order
    service_account < user < analyst < admin, and shows the access-denied
    page otherwise; the user's [isActive] flag has no influence on the
    outcome. *)
Theorem C1_guard_compares_ranks_only (u : User) (t : string) (r : UserRole) :
  (roleHierarchy SERVICE_ACCOUNT < roleHierarchy USER
   ∧ roleHierarchy USER < roleHierarchy ANALYST
   ∧ roleHierarchy ANALYST < roleHierarchy ADMIN)
  ∧ (ProtectedRoute (Some r) (signed_in u t) = Children
     <-> roleHierarchy r <= roleHierarchy (role u))
  ∧ (ProtectedRoute (Some r) (signed_in u t) = AccessDenied
     <-> roleHierarchy (role u) < roleHierarchy r)
  ∧ (∀ flag, ProtectedRoute (Some r) (signed_in (with_isActive flag u) t)
             = ProtectedRoute (Some r) (signed_in u t)).
Proof.
  split; [exact roleHierarchy_order|].
  assert (Hframe : ∀ flag,
             ProtectedRoute (Some r) (signed_in (with_isActive flag u) t)
             = ProtectedRoute (Some r) (signed_in u t))
    by (intros flag; reflexivity).
  unfold ProtectedRoute, signed_in in *; cbn [isAuthenticated user] in *.
  destruct (Z.ltb_spec (roleHierarchy (role u)) (roleHierarchy r)) as [Hlt|Hge].
  - repeat split; try discriminate; try lia; try reflexivity; exact Hframe.
  - repeat split; try discriminate; try lia; try reflexivity; exact Hframe.
Qed.

(** ** The engine enumeration *)

Lemma ExecutionEngine_value_inj (e1 e2 : ExecutionEngine) :
  ExecutionEngine_value e1 = ExecutionEngine_value e2 -> e1 = e2.
Proof. destruct e1, e2; cbn; intros H; first [reflexivity | discriminate H]. Qed.

Lemma ExecutionEngine_closed (e : ExecutionEngine) : e ∈ ExecutionEngine_values.
Proof. destruct e; unfold ExecutionEngine_values; rewrite !elem_of_cons; auto. Qed.

Lemma history_rows_engines (st : RootState) (rows : list HistoryRow) :
  Dashboard_history st = Some rows ->
  Forall (fun row => row_engine row ∈ ExecutionEngine_values) rows.
Proof. intros _. apply Forall_forall. intros row _. apply ExecutionEngine_closed. Qed.

(** ** The execution history table *)

Lemma Dashboard_history_rows (st : RootState) (rows : list HistoryRow) :
  Dashboard_history st = Some rows
  <-> ∃ u, user (auth st) = Some u ∧ role u = ADMIN
           ∧ rows = history_row <$> take 10 (items (executions st)).
Proof.
  unfold Dashboard_history. destruct (user (auth st)) as [u|].
  - destruct (decide (role u = ADMIN)) as [Ha|Hna]; split.
    + intros [= <-]. exists u. auto.
    + intros (u' & [= <-] & _ & ->). reflexivity.
    + discriminate.
    + intros (u' & [= <-] & Ha & _). contradiction.
  - split; [discriminate|]. intros (u' & Hu & _). discriminate Hu.
Qed.

Lemma Dashboard_history_hidden (st : RootState) (u : User) :
  user (auth st) = Some u -> role u ≠ ADMIN -> Dashboard_history st = None.
Proof.
  intros Hu Hr. unfold Dashboard_history. rewrite Hu.
  destruct (decide (role u = ADMIN)); [contradiction | reflexivity].
Qed.

(** C4 (as stated, refuted): a signed-in user of role [user] whose store holds
    one execution is shown no listing at all. *)
Lemma C4_plain_user_sees_no_listing :
  roleHierarchy USER <= roleHierarchy (role (sample_user USER true))
  ∧ Dashboard_history
      (mkRootState (signed_in (sample_user USER true) "t")
                   (mkExecutionsState [sample_execution "e-1" DIRECT_LLM]
                                      None false None)
                   (mkUiState "light" true []))
    = None.
Proof. split; [cbn; lia | reflexivity]. Qed.

(** C4 (amended): the dashboard renders the execution history table exactly
    when the signed-in user's role is [admin]; the table then lists the
    first ten executions held in the client's store.  For the roles
    [user], [analyst] and [service_account] no listing is rendered. *)
Theorem C4_history_is_admin_only (st : RootState) (u : User) :
  user (auth st) = Some u ->
  (role u = ADMIN ->
   Dashboard_history st
   = Some (history_row <$> take 10 (items (executions st))))
  ∧ (role u ≠ ADMIN -> Dashboard_history st = None)
  ∧ (∀ rows, Dashboard_history st = Some rows -> (length rows <= 10)%nat).
Proof.
  intros Hu. split; [|split].
  - intros Ha. apply Dashboard_history_rows. exists u. auto.
  - apply Dashboard_history_hidden. exact Hu.
  - intros rows Hrows. apply Dashboard_history_rows in Hrows.
    destruct Hrows as (_ & _ & _ & ->).
    rewrite length_fmap, length_take. lia.
Qed.

(** An administrator sees the one stored execution as a row; an analyst
    with the same store sees no table. *)
Lemma C4_history_is_admin_only_witness :
  Dashboard_history
    (mkRootState (signed_in (sample_user ADMIN true) "t")
                 (mkExecutionsState [sample_execution "e-1" CREWAI]
                                    None false None)
                 (mkUiState "light" true []))
  = Some [mkHistoryRow "e-1" CREWAI 2 3]
  ∧ Dashboard_history
      (mkRootState (signed_in (sample_user ANALYST true) "t")
                   (mkExecutionsState [sample_execution "e-1" CREWAI]
                                      None false None)
                   (mkUiState "light" true []))
    = None.
Proof.
  split.
  - apply (C4_history_is_admin_only
             (mkRootState (signed_in (sample_user ADMIN true) "t")
                          (mkExecutionsState [sample_execution "e-1" CREWAI]
                                             None false None)
                          (mkUiState "light" true []))
             (sample_user ADMIN true)); reflexivity.
  - apply (C4_history_is_admin_only
             (mkRootState (signed_in (sample_user ANALYST true) "t")
                          (mkExecutionsState [sample_execution "e-1" CREWAI]
                                             None false None)
                          (mkUiState "light" true []))
             (sample_user ANALYST true)); [reflexivity | discriminate].
Defined.

(** ** The initial auth state *)

Lemma truthy_nonempty (s : string) : truthy s = true <-> s ≠ EmptyString.
Proof. destruct s; cbn; split; congruence. Qed.

Lemma double_bang_true (x : option string) :
  double_bang x = true <-> ∃ s, x = Some s ∧ s ≠ EmptyString.
Proof.
  destruct x as [s|]; cbn.
  - rewrite truthy_nonempty. split.
    + intros H. exists s. auto.
    + intros (s' & [= <-] & H). exact H.
  - split; [discriminate|]. intros (s' & H & _). discriminate H.
Qed.

(** C8: whatever non-empty string sits under ['token'] when the store is
    created, the initial auth state is authenticated with no user; the
    string itself is all that is looked at.  With no entry, or an empty
    one, the initial state is not authenticated. *)
Theorem C8_initial_auth_state (ls : gmap string string) :
  user (auth (initialState ls)) = None
  ∧ (isAuthenticated (auth (initialState ls)) = true
     <-> ∃ t, ls !! "token" = Some t ∧ t ≠ EmptyString)
  ∧ (isAuthenticated (auth (initialState ls)) = false
     <-> ls !! "token" = None ∨ ls !! "token" = Some EmptyString)
  ∧ (∀ b, localStorage b = ls -> store_created (pageLoad b) = initialState ls).
Proof.
  split; [reflexivity|]. split; [apply double_bang_true|]. split.
  - cbn. destruct (ls !! "token") as [[|c s]|]; cbn; split; auto;
      try discriminate; intros [H|H]; discriminate H.
  - intros b <-. reflexivity.
Qed.

(** ** What the API client sends, and with which token *)

Local Open Scope list_scope.

Lemma authorization_axios_create m u ps d :
  authorization (axios_create m u ps d) = None.
Proof. reflexivity. Qed.

Lemma authorization_config_of (c : ApiCall) (config : Request) :
  config_of c = Some config -> authorization config = None.
Proof. destruct c; cbn; intros [= <-]; reflexivity. Qed.

Lemma authorization_requestInterceptor (tok : option string) (config : Request) :
  authorization config = None ->
  authorization (requestInterceptor tok config) = bearer_of tok.
Proof.
  intros Hnone. unfold requestInterceptor, bearer_of, or_null.
  destruct tok as [t|]; [|exact Hnone].
  destruct (truthy t); [|exact Hnone].
  unfold authorization, set_header; cbn. apply lookup_insert_eq.
Qed.

Lemma responseInterceptor_frame (st : option Z) (b : Browser) :
  sent (responseInterceptor st b) = sent b
  ∧ localStorage (responseInterceptor st b) = localStorage b
  ∧ dispatched (responseInterceptor st b) = dispatched b
  ∧ client_token (responseInterceptor st b)
    = (if bool_decide (st = Some 401) then None else client_token b).
Proof. unfold responseInterceptor. case_bool_decide; auto. Qed.

Lemma client_request_sent {A} (config : Request) (s : Server A) (b : Browser) :
  sent (fst (client_request config s b))
  = sent b ++ [requestInterceptor (client_token b) config].
Proof.
  unfold client_request. destruct (s _) as [d|st dt]; cbn; [reflexivity|].
  apply responseInterceptor_frame.
Qed.

Lemma client_request_token {A} (config : Request) (s : Server A) (b : Browser) :
  client_token (fst (client_request config s b))
  = (if bool_decide
          (reply_status (s (requestInterceptor (client_token b) config))
           = Some 401)
     then None else client_token b).
Proof.
  unfold client_request. destruct (s _) as [d|st dt]; cbn.
  - reflexivity.
  - rewrite (proj2 (proj2 (proj2 (responseInterceptor_frame st _)))).
    reflexivity.
Qed.

Lemma client_request_reply {A} (config : Request) (s : Server A) (b : Browser) :
  snd (client_request config s b)
  = s (requestInterceptor (client_token b) config).
Proof. unfold client_request. destruct (s _); reflexivity. Qed.

Lemma setToken_frame (t : string) (b : Browser) :
  sent (setToken t b) = sent b ∧ client_token (setToken t b) = Some t
  ∧ localStorage (setToken t b) !! "token" = Some t.
Proof. unfold setToken; cbn. repeat split. apply lookup_insert_eq. Qed.

(** Every call puts at most one request on the wire: its config, passed
    through the request interceptor with the token held at that time. *)
Lemma sent_perform (c : ApiCall) (b : Browser) :
  sent (perform c b)
  = sent b ++ (requestInterceptor (client_token b) <$> option_list (config_of c)).
Proof.
  destruct c; cbn [perform config_of option_list fmap list_fmap].
  - unfold login.
    pose proof (client_request_sent
                  (axios_create POST "/auth/login" []
                                (LoginBody username_ password_)) server b) as Hs.
    destruct (client_request _ server b) as [b1 [d|st dt]]; cbn in *;
      exact Hs.
  - cbn. symmetry. apply app_nil_r.
  - unfold refreshToken.
    pose proof (client_request_sent
                  (axios_create POST "/auth/refresh" [] NoBody) server b) as Hs.
    destruct (client_request _ server b) as [b1 [d|st dt]]; cbn in *;
      exact Hs.
  - apply client_request_sent.
  - apply client_request_sent.
  - apply client_request_sent.
  - apply client_request_sent.
Qed.

Lemma newly_sent_perform (c : ApiCall) (b : Browser) :
  newly_sent b (perform c b)
  = requestInterceptor (client_token b) <$> option_list (config_of c).
Proof.
  unfold newly_sent. rewrite sent_perform. apply drop_app_length.
Qed.

Lemma sent_perform_all (cs : list ApiCall) (b : Browser) :
  ∃ more, sent (perform_all cs b) = sent b ++ more.
Proof.
  revert b. induction cs as [|c cs IH]; intros b.
  - exists []. cbn. symmetry. apply app_nil_r.
  - cbn. destruct (IH (perform c b)) as [more Hmore].
    unfold perform_all in Hmore. rewrite Hmore, sent_perform.
    eexists. rewrite <- app_assoc. reflexivity.
Qed.

Lemma newly_sent_cons (c : ApiCall) (cs : list ApiCall) (b : Browser) :
  newly_sent b (perform_all (c :: cs) b)
  = newly_sent b (perform c b)
    ++ newly_sent (perform c b) (perform_all cs (perform c b)).
Proof.
  unfold newly_sent. cbn.
  destruct (sent_perform_all cs (perform c b)) as [more Hmore].
  unfold perform_all in *. rewrite Hmore.
  rewrite (drop_app_length (sent (perform c b))).
  rewrite sent_perform, <- app_assoc, !drop_app_length. reflexivity.
Qed.

(** The header a call's request carries is decided by the in-memory token
    alone. *)
Lemma authorization_newly_sent (c : ApiCall) (b : Browser) :
  authorization <$> newly_sent b (perform c b)
  = (fun _ => bearer_of (client_token b)) <$> option_list (config_of c).
Proof.
  rewrite newly_sent_perform.
  destruct (config_of c) as [config|] eqn:Hc; cbn; [|reflexivity].
  rewrite authorization_requestInterceptor; [reflexivity|].
  eapply authorization_config_of; eassumption.
Qed.

(** The in-memory token after a call that does not go through
    [setToken]: dropped by [logout] and by a 401, kept otherwise. *)
Lemma client_token_perform (c : ApiCall) (b : Browser) :
  no_setToken [c] = true ->
  client_token (perform c b)
  = (if is_logout c || bool_decide (answer_status c b = Some 401)
     then None else client_token b).
Proof.
  intros Hc. destruct c; try discriminate Hc; cbn [perform is_logout orb].
  - reflexivity.
  - unfold executeAgent. rewrite client_request_token.
    unfold answer_status; cbn [config_of].
    repeat case_bool_decide; try reflexivity; naive_solver.
  - unfold getExecutionHistory. rewrite client_request_token.
    unfold answer_status; cbn [config_of].
    repeat case_bool_decide; try reflexivity; naive_solver.
  - unfold getMetrics. rewrite client_request_token.
    unfold answer_status; cbn [config_of].
    repeat case_bool_decide; try reflexivity; naive_solver.
  - unfold getSystemStatus. rewrite client_request_token.
    unfold answer_status; cbn [config_of].
    repeat case_bool_decide; try reflexivity; naive_solver.
Qed.

Lemma newly_sent_headers (c : ApiCall) (b : Browser) :
  Forall (fun rq => authorization rq = bearer_of (client_token b))
         (newly_sent b (perform c b)).
Proof.
  rewrite newly_sent_perform.
  destruct (config_of c) as [config|] eqn:Hc; cbn; constructor.
  - apply authorization_requestInterceptor.
    eapply authorization_config_of; eassumption.
  - constructor.
Qed.

Lemma length_newly_sent (c : ApiCall) (b : Browser) :
  is_logout c = false -> length (newly_sent b (perform c b)) = 1%nat.
Proof.
  intros Hc. rewrite newly_sent_perform.
  destruct c; try discriminate Hc; reflexivity.
Qed.

Lemma no_setToken_cons (c : ApiCall) (cs : list ApiCall) :
  no_setToken (c :: cs) = true -> no_setToken [c] = true ∧ no_setToken cs = true.
Proof.
  unfold no_setToken; cbn. rewrite andb_true_r.
  intros H. apply andb_prop in H. exact H.
Qed.

(** Without a token in memory, and until something calls [setToken], no
    request carries credentials. *)
Lemma no_token_no_credentials (cs : list ApiCall) (b : Browser) :
  client_token b = None ->
  no_setToken cs = true ->
  client_token (perform_all cs b) = None
  ∧ Forall (fun rq => authorization rq = None)
           (newly_sent b (perform_all cs b)).
Proof.
  revert b. induction cs as [|c cs IH]; intros b Hb Hcs.
  - split; [exact Hb|]. unfold newly_sent; cbn.
    rewrite drop_all. constructor.
  - apply no_setToken_cons in Hcs. destruct Hcs as [Hc Hcs].
    assert (Hb1 : client_token (perform c b) = None).
    { rewrite (client_token_perform c b Hc), Hb.
      destruct (is_logout c || _); reflexivity. }
    destruct (IH (perform c b) Hb1 Hcs) as [Htok Hall].
    split; [exact Htok|].
    rewrite newly_sent_cons. apply Forall_app. split; [|exact Hall].
    pose proof (newly_sent_headers c b) as Hh. rewrite Hb in Hh. exact Hh.
Qed.

(** With a non-empty token in memory, every request of a quiet run carries
    it, and the token is still in place afterwards. *)
Lemma token_kept_in_quiet_run (cs : list ApiCall) (b : Browser) (t : string) :
  client_token b = Some t ->
  truthy t = true ->
  quiet_run cs b = true ->
  client_token (perform_all cs b) = Some t
  ∧ Forall (fun rq => authorization rq = Some ("Bearer " ++ t)%string)
           (newly_sent b (perform_all cs b))
  ∧ length (newly_sent b (perform_all cs b)) = length cs.
Proof.
  revert b. induction cs as [|c cs IH]; intros b Hb Ht Hq.
  - split; [exact Hb|]. unfold newly_sent; cbn.
    rewrite drop_all. split; [constructor | reflexivity].
  - cbn [quiet_run] in Hq.
    apply andb_prop in Hq. destruct Hq as [Hq Hrest].
    apply andb_prop in Hq. destruct Hq as [Htouch H401].
    apply negb_true_iff in Htouch. apply negb_true_iff in H401.
    assert (Hset : no_setToken [c] = true)
      by (destruct c; try discriminate Htouch; reflexivity).
    assert (Hlog : is_logout c = false)
      by (destruct c; try discriminate Htouch; reflexivity).
    assert (Hb1 : client_token (perform c b) = Some t).
    { rewrite (client_token_perform c b Hset), Hlog, H401. exact Hb. }
    destruct (IH (perform c b) Hb1 Ht Hrest) as (Htok & Hall & Hlen).
    split; [exact Htok|].
    rewrite newly_sent_cons. split.
    + apply Forall_app. split; [|exact Hall].
      pose proof (newly_sent_headers c b) as Hh.
      rewrite Hb in Hh. unfold bearer_of, or_null in Hh.
      rewrite Ht in Hh. exact Hh.
    + rewrite length_app, Hlen, (length_newly_sent c b Hlog). reflexivity.
Qed.

(** ** Login *)

Lemma login_fulfilled (u p : string) (server : Server LoginData)
    (b : Browser) (d : LoginData) :
  server (requestInterceptor (client_token b)
            (axios_create POST "/auth/login" [] (LoginBody u p)))
  = Fulfilled d ->
  login u p server b
  = (setToken (access_token d)
       (push_sent (requestInterceptor (client_token b)
                     (axios_create POST "/auth/login" [] (LoginBody u p))) b),
     Fulfilled (mkLoginResult (access_token d) (data_user d))).
Proof. intros Hd. unfold login, client_request. rewrite Hd. reflexivity. Qed.

(** C7 (as stated, refuted): after a successful login that returned the token
    [abc], a request answered with 401 makes the client drop the token, and
    the request after it carries no [Authorization] header; and a login
    that returned an empty token is followed by a request with no header. *)
Lemma C7_later_request_without_token :
  authorization
    <$> newly_sent
          (perform (call_login "ada" "pw" (login_accepts "abc")) blank_tab)
          (perform_all
             [call_getMetrics (refuses 401); call_getSystemStatus (answers healthy)]
             (perform (call_login "ada" "pw" (login_accepts "abc")) blank_tab))
  = [Some "Bearer abc"; None]
  ∧ authorization
      <$> newly_sent
            (perform (call_login "ada" "pw" (login_accepts EmptyString)) blank_tab)
            (perform (call_getSystemStatus (answers healthy))
               (perform (call_login "ada" "pw" (login_accepts EmptyString))
                        blank_tab))
    = [None].
Proof. split; vm_compute; reflexivity. Qed.

(** C7 (amended): a login the server accepts sends one POST to [/auth/login]
    with body [{username, password}] and yields the returned access token
    and user; the client then holds the token in memory and under ['token']
    in localStorage.  When the token is not empty, every request the same
    client sends carries [Authorization: Bearer <token>] for as long as the
    token is in place, that is in every run of data calls none of which is
    answered with 401. *)
Theorem C7_login_then_bearer (u p : string) (server : Server LoginData)
    (b : Browser) (d : LoginData) (cs : list ApiCall) :
  server (requestInterceptor (client_token b)
            (axios_create POST "/auth/login" [] (LoginBody u p)))
  = Fulfilled d ->
  (newly_sent b (fst (login u p server b))
   = [requestInterceptor (client_token b)
        (axios_create POST "/auth/login" [] (LoginBody u p))]
   ∧ Forall (fun rq => method rq = POST ∧ url rq = "/auth/login"
                       ∧ data rq = LoginBody u p)
            (newly_sent b (fst (login u p server b))))
  ∧ snd (login u p server b)
    = Fulfilled (mkLoginResult (access_token d) (data_user d))
  ∧ client_token (fst (login u p server b)) = Some (access_token d)
  ∧ localStorage (fst (login u p server b)) !! "token" = Some (access_token d)
  ∧ (truthy (access_token d) = true ->
     quiet_run cs (fst (login u p server b)) = true ->
     Forall (fun rq => authorization rq
                       = Some ("Bearer " ++ access_token d)%string)
            (newly_sent (fst (login u p server b))
                        (perform_all cs (fst (login u p server b))))
     ∧ length (newly_sent (fst (login u p server b))
                          (perform_all cs (fst (login u p server b))))
       = length cs).
Proof.
  intros Hd.
  assert (Hsent : newly_sent b (fst (login u p server b))
                  = [requestInterceptor (client_token b)
                       (axios_create POST "/auth/login" [] (LoginBody u p))]).
  { change (fst (login u p server b)) with (perform (call_login u p server) b).
    rewrite newly_sent_perform. reflexivity. }
  split; [split; [exact Hsent|]|].
  { rewrite Hsent. constructor; [|constructor].
    unfold requestInterceptor. destruct (client_token b) as [t|]; cbn;
      [destruct (truthy t); cbn|]; auto. }
  rewrite (login_fulfilled u p server b d Hd). cbn [fst snd].
  split; [reflexivity|].
  split; [apply setToken_frame|]. split; [apply setToken_frame|].
  intros Ht Hq.
  eapply token_kept_in_quiet_run in Hq as (_ & Hall & Hlen);
    [split; [exact Hall | exact Hlen] | apply setToken_frame | exact Ht].
Qed.

(** A login answered with the token [abc], followed by a status call and
    an execution that is refused with 503: both carry the token. *)
Lemma C7_login_then_bearer_witness :
  snd (login "ada" "pw" (login_accepts "abc") blank_tab)
  = Fulfilled (mkLoginResult "abc" (sample_user USER true))
  ∧ localStorage (fst (login "ada" "pw" (login_accepts "abc") blank_tab))
      !! "token" = Some "abc"
  ∧ Forall (fun rq => authorization rq = Some "Bearer abc")
      (newly_sent
         (fst (login "ada" "pw" (login_accepts "abc") blank_tab))
         (perform_all
            [call_getSystemStatus (answers healthy);
             call_executeAgent
               (mkExecutionRequest "Summarise the report" HIGH None None None)
               (refuses 503)]
            (fst (login "ada" "pw" (login_accepts "abc") blank_tab)))).
Proof.
  destruct (C7_login_then_bearer "ada" "pw" (login_accepts "abc") blank_tab
              (mkLoginData "abc" (sample_user USER true))
              [call_getSystemStatus (answers healthy);
               call_executeAgent
                 (mkExecutionRequest "Summarise the report" HIGH None None None)
                 (refuses 503)]
              eq_refl)
    as (_ & Hres & _ & Hls & Hrun).
  split; [exact Hres|]. split; [exact Hls|].
  apply Hrun; vm_compute; reflexivity.
Defined.

(** What the login page leaves behind once the browser has followed the
    navigation to [/dashboard]: the token is in localStorage only, the new
    store has no user, and the route guard sends the tab back to the login
    page. *)
Lemma reload_after_login (server : Server LoginData) (st : LoginPageState)
    (b : Browser) (d : LoginData) :
  server (requestInterceptor (client_token b)
            (axios_create POST "/auth/login" []
               (LoginBody (login_username st) (login_password st))))
  = Fulfilled d ->
  location_href (snd (handleLogin server st b)) = "/dashboard"
  ∧ client_token (pageLoad (snd (handleLogin server st b))) = None
  ∧ localStorage (pageLoad (snd (handleLogin server st b))) !! "token"
    = Some (access_token d)
  ∧ user (auth (store_created (pageLoad (snd (handleLogin server st b)))))
    = None
  ∧ App (Some path_dashboard)
        (store_created (pageLoad (snd (handleLogin server st b))))
    = LoginScreen.
Proof.
  intros Hd. unfold handleLogin.
  rewrite (login_fulfilled _ _ server b d Hd). cbn.
  split; [reflexivity|]. split; [reflexivity|].
  split; [apply lookup_insert_eq|]. split; [reflexivity|].
  unfold App, ProtectedRoute; cbn.
  destruct (double_bang _); reflexivity.
Qed.

(** ** The header and the in-memory token *)

(** C9 (as stated, refuted): a token field holding the empty string is not
    null, yet the request goes out without an [Authorization] header. *)
Lemma C9_empty_token_is_not_null_but_no_header :
  client_token (setToken EmptyString blank_tab) ≠ None
  ∧ authorization
      <$> newly_sent (setToken EmptyString blank_tab)
                     (perform (call_getMetrics (answers "up"))
                              (setToken EmptyString blank_tab))
    = [None].
Proof. split; [discriminate | vm_compute; reflexivity]. Qed.

(** C9 (amended): the request of every API call carries
    [Authorization: Bearer <token>] exactly when the client's in-memory
    token field holds a non-empty string, and no header otherwise;
    localStorage plays no part in it, although [getToken] falls back to it.
    Hence after a page load, and after a call answered with 401, every
    request goes out without credentials until [login] or [refreshToken]
    (the callers of [setToken]) runs again. *)
Theorem C9_header_follows_memory_token (c : ApiCall) (b : Browser)
    (cs : list ApiCall) :
  no_setToken cs = true ->
  authorization <$> newly_sent b (perform c b)
  = (fun _ => bearer_of (client_token b)) <$> option_list (config_of c)
  ∧ (bearer_of (client_token b) ≠ None
     <-> ∃ t, client_token b = Some t ∧ t ≠ EmptyString)
  ∧ (∀ ls, authorization
             <$> newly_sent (set_localStorage ls b)
                            (perform c (set_localStorage ls b))
           = authorization <$> newly_sent b (perform c b))
  ∧ getToken (pageLoad b) = localStorage b !! "token"
  ∧ Forall (fun rq => authorization rq = None)
           (newly_sent (pageLoad b) (perform_all cs (pageLoad b)))
  ∧ (answer_status c b = Some 401 ->
     client_token (perform c b) = None
     ∧ Forall (fun rq => authorization rq = None)
              (newly_sent (perform c b) (perform_all cs (perform c b)))).
Proof.
  intros Hcs.
  split; [apply authorization_newly_sent|].
  split.
  { unfold bearer_of, or_null. destruct (client_token b) as [t|]; cbn.
    - destruct (truthy t) eqn:Ht; cbn; split.
      + intros _. exists t. split; [reflexivity|].
        apply truthy_nonempty. exact Ht.
      + discriminate.
      + intros H. contradiction.
      + intros (t' & [= <-] & Hne). apply truthy_nonempty in Hne. congruence.
    - split; [intros H; contradiction|]. intros (t' & H & _). discriminate H. }
  split; [intros ls; rewrite !authorization_newly_sent; reflexivity|].
  split; [reflexivity|].
  split; [apply no_token_no_credentials; [reflexivity | exact Hcs]|].
  intros H401.
  assert (Hnone : client_token (perform c b) = None).
  { destruct c.
    - cbn [perform]. unfold login.
      pose proof (client_request_token
                    (axios_create POST "/auth/login" []
                                  (LoginBody username_ password_)) server b) as Ht.
      pose proof (client_request_reply
                    (axios_create POST "/auth/login" []
                                  (LoginBody username_ password_)) server b) as Hr.
      unfold answer_status in H401; cbn [config_of] in H401.
      destruct (client_request _ server b) as [b1 [d|st dt]]; cbn in *.
      + rewrite <- Hr in H401. discriminate H401.
      + rewrite bool_decide_eq_true_2 in Ht by exact H401. exact Ht.
    - discriminate H401.
    - cbn [perform]. unfold refreshToken.
      pose proof (client_request_token
                    (axios_create POST "/auth/refresh" [] NoBody) server b) as Ht.
      pose proof (client_request_reply
                    (axios_create POST "/auth/refresh" [] NoBody) server b) as Hr.
      unfold answer_status in H401; cbn [config_of] in H401.
      destruct (client_request _ server b) as [b1 [d|st dt]]; cbn in *.
      + rewrite <- Hr in H401. discriminate H401.
      + rewrite bool_decide_eq_true_2 in Ht by exact H401. exact Ht.
    - rewrite (client_token_perform (call_executeAgent request_ server) b eq_refl).
      rewrite H401. reflexivity.
    - rewrite (client_token_perform
                 (call_getExecutionHistory limit offset server) b eq_refl).
      rewrite H401. reflexivity.
    - rewrite (client_token_perform (call_getMetrics server) b eq_refl).
      rewrite H401. reflexivity.
    - rewrite (client_token_perform (call_getSystemStatus server) b eq_refl).
      rewrite H401. reflexivity. }
  split; [exact Hnone|].
  apply no_token_no_credentials; [exact Hnone | exact Hcs].
Qed.

(** A tab that holds [abc]: after a page load two calls go out bare while
    [getToken] still answers [abc]; a call answered 401 carried the token
    and left the field empty. *)
Lemma C9_header_follows_memory_token_witness :
  Forall (fun rq => authorization rq = None)
    (newly_sent
       (pageLoad (setToken "abc" blank_tab))
       (perform_all
          [call_getSystemStatus (answers healthy); call_getMetrics (answers "up")]
          (pageLoad (setToken "abc" blank_tab))))
  ∧ getToken (pageLoad (setToken "abc" blank_tab)) = Some "abc"
  ∧ authorization
      <$> newly_sent (setToken "abc" blank_tab)
                     (perform (call_getMetrics (refuses 401))
                              (setToken "abc" blank_tab))
    = [Some "Bearer abc"]
  ∧ client_token (perform (call_getMetrics (refuses 401))
                          (setToken "abc" blank_tab)) = None.
Proof.
  destruct (C9_header_follows_memory_token
              (call_getMetrics (refuses 401)) (setToken "abc" blank_tab)
              [call_getSystemStatus (answers healthy);
               call_getMetrics (answers "up")]
              eq_refl)
    as (Hhdr & _ & _ & Hget & Hload & H401).
  split; [exact Hload|]. split; [|split].
  - rewrite Hget. vm_compute. reflexivity.
  - rewrite Hhdr. vm_compute. reflexivity.
  - apply H401. vm_compute. reflexivity.
Defined.

(** ** Logout *)

(** C10: [logout] sets the in-memory token to null and removes ['token']
    from localStorage; every other localStorage entry, the location, the
    list of requests sent (none is added), and the Redux store (the state
    it was created with and the actions dispatched, hence its state under
    any reducer) are as before.  The Logout button does this and nothing
    more. *)
Theorem C10_logout_frame (b : Browser) :
  client_token (fst (logout b)) = None
  ∧ localStorage (fst (logout b)) = delete "token" (localStorage b)
  ∧ localStorage (fst (logout b)) !! "token" = None
  ∧ (∀ k, k ≠ "token" ->
          localStorage (fst (logout b)) !! k = localStorage b !! k)
  ∧ sent (fst (logout b)) = sent b
  ∧ newly_sent b (fst (logout b)) = []
  ∧ location_href (fst (logout b)) = location_href b
  ∧ store_created (fst (logout b)) = store_created b
  ∧ dispatched (fst (logout b)) = dispatched b
  ∧ (∀ reducer, storeState reducer (fst (logout b)) = storeState reducer b)
  ∧ snd (logout b) = Fulfilled ()
  ∧ Dashboard_logout_click b = fst (logout b).
Proof.
  unfold logout, Dashboard_logout_click, storeState, newly_sent; cbn.
  repeat split; auto.
  - apply lookup_delete_eq.
  - intros k Hk. apply lookup_delete_ne. congruence.
  - apply drop_all.
Qed.

(** ** The complexity scorer *)

Lemma length_bucket_mono (boundaries : list Z) (n m : Z) :
  n <= m -> Core.length_bucket boundaries n <= Core.length_bucket boundaries m.
Proof.
  intros Hnm. unfold Core.length_bucket.
  induction boundaries as [|x l IH]; [reflexivity|].
  rewrite !filter_cons.
  destruct (decide (x <= n)) as [Hn|Hn], (decide (x <= m)) as [Hm|Hm];
    cbn [length]; lia.
Qed.

Lemma clamp_mono (lo hi x y : Z) :
  x <= y -> Core.clamp lo hi x <= Core.clamp lo hi y.
Proof. unfold Core.clamp. lia. Qed.

Lemma priority_signal_order :
  Core.priority_signal LOW < Core.priority_signal MEDIUM
  ∧ Core.priority_signal MEDIUM < Core.priority_signal HIGH
  ∧ Core.priority_signal HIGH < Core.priority_signal URGENT.
Proof. cbn. lia. Qed.

(** The two measures of a text: [héllo wor] has nine characters and nine
    UTF-16 code units in ten bytes; a character beyond the basic plane is
    one character and two code units. *)
Example text_measures :
  Core.character_count "héllo wor" = 9 ∧ string_length "héllo wor" = 9
  ∧ Core.character_count "😀" = 1 ∧ string_length "😀" = 2.
Proof. repeat split; reflexivity. Qed.

(** C5: under every scoring policy, the score of a request does not go down
    when its description gets longer (in characters) or its priority moves
    up in low < medium < high < urgent, the other fields being the same;
    and the score is a function of the request alone: requests that agree
    on description length, priority and context get the same score. *)
Theorem C5_score_deterministic_monotone (P : Core.ScorePolicy)
    (r : ExecutionRequest) (d' : string) (p' : TaskPriority) :
  (Core.character_count (taskDescription r) <= Core.character_count d' ->
   Core.score P r <= Core.score P (with_taskDescription d' r))
  ∧ (Core.priority_signal (priority r) <= Core.priority_signal p' ->
     Core.score P r <= Core.score P (with_priority p' r))
  ∧ (Core.priority_signal LOW < Core.priority_signal MEDIUM
     ∧ Core.priority_signal MEDIUM < Core.priority_signal HIGH
     ∧ Core.priority_signal HIGH < Core.priority_signal URGENT)
  ∧ (∀ r', Core.character_count (taskDescription r')
           = Core.character_count (taskDescription r) ->
           priority r' = priority r ->
           context r' = context r ->
           Core.score P r' = Core.score P r).
Proof.
  pose proof (N2Z.is_nonneg (Core.w_length P)) as Hwl.
  pose proof (N2Z.is_nonneg (Core.w_priority P)) as Hwp.
  split; [|split; [|split]].
  - intros Hlen. unfold Core.score. apply clamp_mono. cbn.
    pose proof (length_bucket_mono (Core.length_buckets P) _ _ Hlen).
    nia.
  - intros Hpri. unfold Core.score. apply clamp_mono. cbn. nia.
  - exact priority_signal_order.
  - intros r' Hd Hp Hc. unfold Core.score. rewrite Hd, Hp, Hc. reflexivity.
Qed.

(** A policy with weights 2, 1, 3, 1: raising the priority and lengthening
    the description do not lower the score; three accented letters count
    as three characters, fewer than four plain ones. *)
Lemma C5_score_deterministic_monotone_witness :
  Core.score sample_policy
             (mkExecutionRequest "Fix the typo" LOW None None None)
  <= Core.score sample_policy
                (mkExecutionRequest "Fix the typo" HIGH None None None)
  ∧ Core.score (Core.mkScorePolicy [4] 1 0 0 0 (fun _ => 0) 0 10)
               (mkExecutionRequest "ééé" LOW None None None)
    <= Core.score (Core.mkScorePolicy [4] 1 0 0 0 (fun _ => 0) 0 10)
                  (mkExecutionRequest "aaaa" LOW None None None).
Proof.
  split.
  - apply (C5_score_deterministic_monotone sample_policy
             (mkExecutionRequest "Fix the typo" LOW None None None)
             "Fix the typo" HIGH). cbn. lia.
  - apply (C5_score_deterministic_monotone
             (Core.mkScorePolicy [4] 1 0 0 0 (fun _ => 0) 0 10)
             (mkExecutionRequest "ééé" LOW None None None)
             "aaaa" LOW). vm_compute. intros H. discriminate H.
Defined.

(** ** The routing decision *)

Lemma available_remaining (out : Core.EvaluatorOutput) (e : ExecutionEngine) :
  e ∈ Core.remaining out <-> Core.is_available out e = true.
Proof.
  unfold Core.remaining. rewrite list_elem_of_filter.
  split; [intros [H _]; exact H|]. intros H. split; [exact H|].
  destruct e; unfold Core.engines_ascending; rewrite !elem_of_cons; auto.
Qed.

Lemma tie_break_member (out : Core.EvaluatorOutput) (best : ExecutionEngine)
    (rest : list ExecutionEngine) :
  Core.tie_break out best rest ∈ best :: rest.
Proof.
  revert best. induction rest as [|e rest IH]; intros best; cbn.
  - apply list_elem_of_here.
  - specialize (IH (if Core.cheaper out e best then e else best)).
    rewrite !elem_of_cons in *. destruct (Core.cheaper out e best); tauto.
Qed.

(** Whatever [decide] chooses is an engine the evaluator left available. *)
Lemma decide_engine_remaining (pol : Core.RoutingPolicy) (c : Z)
    (p : TaskPriority) (bh : option Z) (out : Core.EvaluatorOutput)
    (d : Core.RoutingDecision) :
  Core.decide pol c p bh out = inl d ->
  Core.is_available out (Core.decision_engine d) = true.
Proof.
  unfold Core.decide. destruct (Core.remaining out) as [|e0 rest] eqn:Hrem;
    [discriminate|].
  intros [= <-]. cbn. apply available_remaining. rewrite Hrem.
  case_bool_decide as Hp; [exact Hp | apply tie_break_member].
Qed.

Lemma decide_none_available (pol : Core.RoutingPolicy) (c : Z)
    (p : TaskPriority) (bh : option Z) (out : Core.EvaluatorOutput) :
  Core.decide pol c p bh out = inr Core.NoEngineAvailable
  <-> ∀ e, Core.is_available out e = false.
Proof.
  unfold Core.decide. destruct (Core.remaining out) as [|e0 rest] eqn:Hrem.
  - split; [|reflexivity]. intros _ e.
    destruct (Core.is_available out e) eqn:He; [|reflexivity].
    apply available_remaining in He. rewrite Hrem in He.
    apply elem_of_nil in He. contradiction.
  - split; [discriminate|]. intros Hall.
    assert (He0 : e0 ∈ Core.remaining out) by (rewrite Hrem; apply list_elem_of_here).
    apply available_remaining in He0. rewrite Hall in He0. discriminate He0.
Qed.

Lemma decide_urgent (pol : Core.RoutingPolicy) (c : Z) (bh : option Z)
    (out : Core.EvaluatorOutput) :
  Core.is_available out DIRECT_LLM = true ->
  ∃ d, Core.decide pol c URGENT bh out = inl d
       ∧ Core.decision_engine d = DIRECT_LLM.
Proof.
  intros Hav. apply available_remaining in Hav.
  unfold Core.decide. destruct (Core.remaining out) as [|e0 rest] eqn:Hrem.
  - apply elem_of_nil in Hav. contradiction.
  - eexists. split; [reflexivity|]. cbn.
    unfold Core.preferred. cbn.
    rewrite bool_decide_eq_true_2 by exact Hav. reflexivity.
Qed.

(** C6: for a request of priority urgent, whatever its complexity score, the
    budget hint and the thresholds, [decide] selects the direct engine as
    soon as the evaluator has not marked it unavailable; and an urgent
    request that passes the authorizer and the length check is executed by
    the direct engine. *)
Theorem C6_urgent_selects_direct (env : Core.Environment)
    (pol : Core.RoutingPolicy) (c : Z) (bh : option Z)
    (out : Core.EvaluatorOutput) (i : Core.Identity) (r : ExecutionRequest) :
  priority r = URGENT ->
  Core.is_available out DIRECT_LLM = true ->
  (∃ d, Core.decide pol c (priority r) bh out = inl d
        ∧ Core.decision_engine d = DIRECT_LLM)
  ∧ (Core.authorize i USER = None ->
     Core.validate r = None ->
     Core.is_available
       (Core.evaluate env (Core.score (Core.score_policy env) r)) DIRECT_LLM
     = true ->
     ∃ res, snd (Core.execute env (Some i) r) = Core.Ok res
            ∧ Core.result_engine res = DIRECT_LLM).
Proof.
  intros Hu Hav. rewrite Hu. split; [apply decide_urgent; exact Hav|].
  intros Hauth Hval Hav'. unfold Core.execute, Core.routing_decision.
  rewrite Hauth, Hval, Hu.
  destruct (decide_urgent (Core.routing_policy env)
              (Core.score (Core.score_policy env) r)
              (Core.budget_hint_of env (context r))
              (Core.evaluate env (Core.score (Core.score_policy env) r)) Hav')
    as (d & Hd & He).
  rewrite Hd. cbn. eexists. split; [reflexivity|].
  unfold Core.dispatch. rewrite He.
  destruct (Core.attempts _ _ _ _ _), (Core.meter _ _ _) as [[? ?] ?].
  reflexivity.
Qed.

(** With all three engines available and the top complexity score, an
    urgent request is routed to and run on the direct engine. *)
Lemma C6_urgent_selects_direct_witness :
  (Core.decision_engine
     <$> sum_rect (fun _ => option Core.RoutingDecision) Some (fun _ => None)
           (Core.decide (Core.mkRoutingPolicy 3 7 100) 10 URGENT None
                        all_available))
  = Some DIRECT_LLM
  ∧ Core.result_engine
      <$> Core.created
            (snd (Core.execute sample_env (Some (sample_identity USER true))
                    (mkExecutionRequest "Fix the typo in the title" URGENT
                                        None None None)))
    = Some DIRECT_LLM.
Proof.
  destruct (C6_urgent_selects_direct sample_env (Core.mkRoutingPolicy 3 7 100)
              10 None all_available (sample_identity USER true)
              (mkExecutionRequest "Fix the typo in the title" URGENT
                                  None None None)
              eq_refl eq_refl)
    as [(d & Hd & He) Hrun].
  split.
  - cbn [priority] in Hd. rewrite Hd. cbn. rewrite He. reflexivity.
  - destruct Hrun as (res & Hres & Heng); [reflexivity..|].
    rewrite Hres. cbn. rewrite Heng. reflexivity.
Defined.

(** The specification's own urgent scenario, [Fix typo], is eight
    characters long: at the endpoint it stops at the length check. *)
Example urgent_scenario_is_too_short :
  Core.execute sample_env (Some (sample_identity USER true))
               (mkExecutionRequest "Fix typo" URGENT None None None)
  = ([Core.Validate; Core.Record_],
     Core.Unprocessable Core.DescriptionTooShort).
Proof. reflexivity. Qed.

(** ** Validation at the boundary *)

Lemma validate_in_bounds (r : ExecutionRequest) :
  Core.validate r = None
  <-> 10 <= Core.character_count (taskDescription r) <= 5000.
Proof.
  unfold Core.validate.
  destruct (Z.ltb_spec (Core.character_count (taskDescription r)) 10);
    [split; [discriminate | lia]|].
  destruct (Z.ltb_spec 5000 (Core.character_count (taskDescription r)));
    [split; [discriminate | lia]|].
  split; [lia | reflexivity].
Qed.

Lemma validate_too_short (r : ExecutionRequest) :
  Core.validate r = Some Core.DescriptionTooShort
  <-> Core.character_count (taskDescription r) < 10.
Proof.
  unfold Core.validate.
  destruct (Z.ltb_spec (Core.character_count (taskDescription r)) 10);
    [split; auto|].
  destruct (Z.ltb_spec 5000 (Core.character_count (taskDescription r)));
    split; try discriminate; lia.
Qed.

Lemma validate_too_long (r : ExecutionRequest) :
  Core.validate r = Some Core.DescriptionTooLong
  <-> 5000 < Core.character_count (taskDescription r).
Proof.
  unfold Core.validate.
  destruct (Z.ltb_spec (Core.character_count (taskDescription r)) 10);
    [split; [discriminate | lia]|].
  destruct (Z.ltb_spec 5000 (Core.character_count (taskDescription r)));
    split; try discriminate; auto; lia.
Qed.

Lemma validate_out_of_bounds (r : ExecutionRequest) :
  out_of_bounds (taskDescription r) <-> ∃ why, Core.validate r = Some why.
Proof.
  unfold out_of_bounds. split.
  - intros [H|H]; [apply validate_too_short in H | apply validate_too_long in H];
      eauto.
  - intros [[] H]; [left; apply validate_too_short | right; apply validate_too_long];
      exact H.
Qed.

(** The endpoint stops at the length check exactly for the descriptions
    that are out of bounds, whoever calls. *)
Lemma execute_refused (env : Core.Environment)
    (caller : option Core.Identity) (r : ExecutionRequest)
    (why : Core.ValidationError) :
  Core.validate r = Some why
  <-> Core.execute env caller r
      = ([Core.Validate; Core.Record_], Core.Unprocessable why).
Proof.
  unfold Core.execute. destruct (Core.validate r) as [why'|]; split.
  - intros [= ->]. reflexivity.
  - intros [= ->]. reflexivity.
  - discriminate.
  - destruct caller as [i|]; [destruct (Core.authorize i USER);
      [|destruct (Core.routing_decision env r)]|]; discriminate.
Qed.

Lemma execute_out_of_bounds (env : Core.Environment)
    (caller : option Core.Identity) (r : ExecutionRequest) :
  out_of_bounds (taskDescription r) ->
  fst (Core.execute env caller r) = [Core.Validate; Core.Record_]
  ∧ Forall (fun ph => ph ∉ work_phases) (fst (Core.execute env caller r))
  ∧ Core.created (snd (Core.execute env caller r)) = None
  ∧ Core.status_code (snd (Core.execute env caller r)) = 422.
Proof.
  intros Hbad. apply validate_out_of_bounds in Hbad. destruct Hbad as [why Hv].
  rewrite (proj1 (execute_refused env caller r why) Hv). cbn.
  split; [reflexivity|]. split; [|split; reflexivity].
  repeat constructor; unfold work_phases; rewrite !elem_of_cons;
    rewrite elem_of_nil; intuition discriminate.
Qed.

Lemma status_422 (env : Core.Environment)
    (caller : option Core.Identity) (r : ExecutionRequest) :
  Core.status_code (snd (Core.execute env caller r)) = 422 ->
  out_of_bounds (taskDescription r).
Proof.
  intros H. apply validate_out_of_bounds. unfold Core.execute in H.
  destruct (Core.validate r) as [why|]; [eauto|].
  destruct caller as [i|]; [destruct (Core.authorize i USER);
    [|destruct (Core.routing_decision env r)]|]; discriminate H.
Qed.

(** The scorer runs only on a request that passed the length check, and
    after it. *)
Lemma score_only_after_validation (env : Core.Environment)
    (caller : option Core.Identity) (r : ExecutionRequest) :
  Core.Score ∈ fst (Core.execute env caller r) ->
  Core.validate r = None
  ∧ head (fst (Core.execute env caller r)) = Some Core.Validate
  ∧ take 4 (fst (Core.execute env caller r))
    = [Core.Validate; Core.Authenticate; Core.Authorize; Core.Score].
Proof.
  unfold Core.execute. destruct (Core.validate r); cbn.
  - rewrite !elem_of_cons, elem_of_nil. intuition discriminate.
  - destruct caller as [i|]; cbn.
    + destruct (Core.authorize i USER); cbn.
      * rewrite !elem_of_cons, elem_of_nil. intuition discriminate.
      * intros _. destruct (Core.routing_decision env r); auto.
    + rewrite !elem_of_cons, elem_of_nil. intuition discriminate.
Qed.

(** A request within the bounds, from a caller who passes the authorizer,
    reaches the scorer, and is executed as soon as one engine is
    available. *)
Lemma execute_in_bounds (env : Core.Environment) (i : Core.Identity)
    (r : ExecutionRequest) :
  Core.authorize i USER = None ->
  10 <= Core.character_count (taskDescription r) <= 5000 ->
  Core.Score ∈ fst (Core.execute env (Some i) r)
  ∧ ∀ e, Core.is_available
           (Core.evaluate env (Core.score (Core.score_policy env) r)) e = true ->
         ∃ res, snd (Core.execute env (Some i) r) = Core.Ok res.
Proof.
  intros Hauth Hlen. apply validate_in_bounds in Hlen.
  unfold Core.execute. rewrite Hauth, Hlen.
  destruct (Core.routing_decision env r) as [d|[]] eqn:Hd; cbn.
  - split; [rewrite !elem_of_cons; auto 10 | eauto].
  - split; [rewrite !elem_of_cons; auto 10|]. intros e Hav.
    pose proof (proj1 (decide_none_available _ _ _ _ _) Hd) as Hall.
    rewrite Hall in Hav. discriminate Hav.
Qed.

Lemma api_execute_out_of_bounds (env : Core.Environment)
    (verify : string -> option Core.Identity) (rq : Request)
    (r : ExecutionRequest) :
  data rq = ExecuteBody r ->
  out_of_bounds (taskDescription r) ->
  ∃ st dt, Core.api_execute env verify rq = Rejected st dt.
Proof.
  intros Hrq Hbad. unfold Core.api_execute. rewrite Hrq.
  pose proof (execute_out_of_bounds env
                (Core.bearer (headers rq) ≫= verify) r Hbad) as (_ & _ & Hc & _).
  destruct (snd (Core.execute env _ r)); cbn in Hc; try discriminate Hc; eauto.
Qed.

Lemma requestInterceptor_data (tok : option string) (config : Request) :
  data (requestInterceptor tok config) = data config.
Proof.
  unfold requestInterceptor. destruct tok as [t|]; [|reflexivity].
  destruct (truthy t); reflexivity.
Qed.

(** C3: the endpoint answers a request with the validation error 422
    exactly when its description is shorter than 10 or longer than 5000
    characters, whoever the caller is: too short below 10, too long above
    5000, and 10 and 5000 themselves pass.  Such a request stops at the
    length check: none of the scoring, evaluation, decision or dispatch
    phases runs and no execution result is created.  The scorer runs only
    after the check and only within the bounds, and a request within the
    bounds from a caller who passes the authorizer does reach it.  On the
    client the rejection leaves the form's result and the store as they
    were, and the submit button is disabled below a length of 10. *)
Theorem C3_length_checked_before_scoring (env : Core.Environment)
    (caller : option Core.Identity) (r : ExecutionRequest)
    (verify : string -> option Core.Identity)
    (st : ExecutionFormState) (b : Browser) :
  (out_of_bounds (taskDescription r)
   <-> Core.status_code (snd (Core.execute env caller r)) = 422)
  ∧ (Core.character_count (taskDescription r) < 10
     <-> snd (Core.execute env caller r)
         = Core.Unprocessable Core.DescriptionTooShort)
  ∧ (5000 < Core.character_count (taskDescription r)
     <-> snd (Core.execute env caller r)
         = Core.Unprocessable Core.DescriptionTooLong)
  ∧ (out_of_bounds (taskDescription r) ->
     fst (Core.execute env caller r) = [Core.Validate; Core.Record_]
     ∧ Forall (fun ph => ph ∉ work_phases) (fst (Core.execute env caller r))
     ∧ Core.created (snd (Core.execute env caller r)) = None)
  ∧ (Core.Score ∈ fst (Core.execute env caller r) ->
     10 <= Core.character_count (taskDescription r) <= 5000
     ∧ head (fst (Core.execute env caller r)) = Some Core.Validate)
  ∧ (10 <= Core.character_count (taskDescription r) <= 5000 ->
     ∀ i, caller = Some i -> Core.authorize i USER = None ->
          Core.Score ∈ fst (Core.execute env caller r))
  ∧ (form_taskDescription st = taskDescription r ->
     out_of_bounds (taskDescription r) ->
     form_result (fst (handleSubmit (Core.api_execute env verify) st b))
     = form_result st
     ∧ dispatched (snd (handleSubmit (Core.api_execute env verify) st b))
       = dispatched b)
  ∧ (string_length (form_taskDescription st) < 10 -> submit_disabled st = true).
Proof.
  assert (Hsnd : ∀ why, Core.validate r = Some why
                        <-> snd (Core.execute env caller r)
                            = Core.Unprocessable why).
  { intros why. split.
    - intros Hv. rewrite (proj1 (execute_refused env caller r why) Hv).
      reflexivity.
    - unfold Core.execute. destruct (Core.validate r) as [why'|]; cbn.
      + intros [= ->]. reflexivity.
      + destruct caller as [i|]; [destruct (Core.authorize i USER);
          [|destruct (Core.routing_decision env r)]|]; discriminate. }
  split; [|split; [|split; [|split; [|split; [|split; [|split]]]]]].
  - split; [apply execute_out_of_bounds | apply status_422].
  - rewrite <- Hsnd. symmetry. apply validate_too_short.
  - rewrite <- Hsnd. symmetry. apply validate_too_long.
  - intros Hbad.
    destruct (execute_out_of_bounds env caller r Hbad) as (H1 & H2 & H3 & _).
    auto.
  - intros Hs.
    destruct (score_only_after_validation env caller r Hs) as (Hv & Hh & _).
    split; [apply validate_in_bounds; exact Hv | exact Hh].
  - intros Hlen i -> Hauth. apply (execute_in_bounds env i r Hauth Hlen).
  - intros Hform Hbad. unfold handleSubmit, executeAgent.
    set (req := mkExecutionRequest _ _ _ _ _).
    set (config := axios_create _ _ _ _).
    assert (Hd : ∃ s dt,
               Core.api_execute env verify
                 (requestInterceptor (client_token b) config) = Rejected s dt).
    { apply (api_execute_out_of_bounds env verify _ req).
      - rewrite requestInterceptor_data. reflexivity.
      - subst req; cbn. rewrite Hform. exact Hbad. }
    destruct Hd as (s & dt & Hd).
    unfold client_request. rewrite Hd. cbn.
    split; [reflexivity|].
    destruct (responseInterceptor_frame s
                (push_sent (requestInterceptor (client_token b) config) b))
      as (_ & _ & Hdisp & _).
    rewrite Hdisp. reflexivity.
  - intros Hshort. unfold submit_disabled.
    apply orb_true_iff. right. apply Z.ltb_lt. exact Hshort.
Qed.

(** A five-character description is refused with 422 as too short, from a
    signed-in user and from an anonymous caller alike, and the form
    dispatches nothing; five accented letters are five characters. *)
Lemma C3_length_checked_before_scoring_witness :
  snd (Core.execute sample_env (Some (sample_identity USER true))
         (mkExecutionRequest "hello" MEDIUM None None None))
  = Core.Unprocessable Core.DescriptionTooShort
  ∧ Core.status_code
      (snd (Core.execute sample_env None
              (mkExecutionRequest "ééééé" MEDIUM None None None)))
    = 422
  ∧ dispatched
      (snd (handleSubmit (Core.api_execute sample_env token_of_ada)
              (mkExecutionFormState "hello" MEDIUM false EmptyString None)
              (setToken "abc" blank_tab)))
    = [].
Proof.
  split; [|split].
  - apply (C3_length_checked_before_scoring sample_env
             (Some (sample_identity USER true))
             (mkExecutionRequest "hello" MEDIUM None None None)
             token_of_ada
             (mkExecutionFormState "hello" MEDIUM false EmptyString None)
             (setToken "abc" blank_tab)).
    vm_compute. reflexivity.
  - apply (C3_length_checked_before_scoring sample_env None
             (mkExecutionRequest "ééééé" MEDIUM None None None)
             token_of_ada
             (mkExecutionFormState "hello" MEDIUM false EmptyString None)
             (setToken "abc" blank_tab)).
    left. vm_compute. reflexivity.
  - destruct (C3_length_checked_before_scoring sample_env
                (Some (sample_identity USER true))
                (mkExecutionRequest "hello" MEDIUM None None None)
                token_of_ada
                (mkExecutionFormState "hello" MEDIUM false EmptyString None)
                (setToken "abc" blank_tab))
      as (_ & _ & _ & _ & _ & _ & Hclient & _).
    destruct Hclient as [_ Hd]; [reflexivity | left; vm_compute; reflexivity|].
    exact Hd.
Defined.

(** ** The engine of a decision, of a result and of a response *)

Lemma decide_unavailable (pol : Core.RoutingPolicy) (c : Z)
    (p : TaskPriority) (bh : option Z) (out : Core.EvaluatorOutput)
    (why : Core.RoutingError) :
  Core.decide pol c p bh out = inr why -> Core.remaining out = [].
Proof.
  unfold Core.decide. destruct (Core.remaining out); [reflexivity | discriminate].
Qed.

(** The result of an execution carries the engine of the routing decision
    taken for its request. *)
Lemma execute_engine (env : Core.Environment)
    (caller : option Core.Identity) (r : ExecutionRequest)
    (res : Core.ExecutionResult) :
  Core.created (snd (Core.execute env caller r)) = Some res ->
  ∃ d, Core.routing_decision env r = inl d
       ∧ Core.result_engine res = Core.decision_engine d.
Proof.
  unfold Core.execute. destruct (Core.validate r); [discriminate|].
  destruct caller as [i|]; [|discriminate].
  destruct (Core.authorize i USER); [discriminate|].
  destruct (Core.routing_decision env r) as [d|why]; [|discriminate].
  cbn. intros [= <-]. exists d. split; [reflexivity|].
  unfold Core.dispatch.
  destruct (Core.attempts _ _ _ _ _), (Core.meter _ _ _) as [[? ?] ?].
  reflexivity.
Qed.

(** C2: every routing decision names an engine the evaluator left
    available, one of direct, team and dialogue, and there is no decision
    when none is left; every execution result carries the engine of the
    decision taken for its request; and the response the client gets from
    [executeAgent], which hands on the endpoint's answer as it is, carries
    that same engine, whose wire value is one of three different
    strings. *)
Theorem C2_engine_in_closed_set (env : Core.Environment)
    (verify : string -> option Core.Identity)
    (caller : option Core.Identity) (r : ExecutionRequest)
    (pol : Core.RoutingPolicy) (c : Z) (p : TaskPriority) (bh : option Z)
    (out : Core.EvaluatorOutput) (b : Browser) :
  match Core.decide pol c p bh out with
  | inl d =>
      Core.decision_engine d ∈ Core.remaining out
      ∧ Core.is_available out (Core.decision_engine d) = true
      ∧ Core.decision_engine d ∈ [DIRECT_LLM; CREWAI; AUTOGEN]
  | inr _ => Core.remaining out = []
  end
  ∧ match Core.created (snd (Core.execute env caller r)) with
    | Some res =>
        ∃ d, Core.routing_decision env r = inl d
             ∧ Core.result_engine res = Core.decision_engine d
             ∧ engine (Core.to_ExecutionResponse res) = Core.decision_engine d
    | None => True
    end
  ∧ match snd (executeAgent r (Core.api_execute env verify) b) with
    | Fulfilled response =>
        ∃ d, Core.routing_decision env r = inl d
             ∧ engine response = Core.decision_engine d
             ∧ ExecutionEngine_value (engine response)
               ∈ ["direct_llm"; "crewai"; "autogen"]
    | Rejected _ _ => True
    end
  ∧ (∀ server : Server ExecutionResponse,
       snd (executeAgent r server b)
       = server (requestInterceptor (client_token b)
                   (axios_create POST "/api/v1/execute" [] (ExecuteBody r))))
  ∧ NoDup (ExecutionEngine_value <$> ExecutionEngine_values).
Proof.
  split; [|split; [|split; [|split]]].
  - destruct (Core.decide pol c p bh out) as [d|why] eqn:Hd.
    + pose proof (decide_engine_remaining pol c p bh out d Hd) as Hav.
      split; [apply available_remaining; exact Hav|]. split; [exact Hav|].
      apply ExecutionEngine_closed.
    + apply (decide_unavailable pol c p bh out why Hd).
  - destruct (Core.created _) as [res|] eqn:Hres; [|exact I].
    destruct (execute_engine env caller r res Hres) as (d & Hd & He).
    exists d. auto.
  - unfold executeAgent. rewrite client_request_reply.
    unfold Core.api_execute. rewrite requestInterceptor_data. cbn [data axios_create].
    set (who := Core.bearer _ ≫= verify).
    destruct (snd (Core.execute env who r)) as [| | | |res] eqn:Hex;
      try exact I.
    destruct (execute_engine env who r res) as (d & Hd & He);
      [rewrite Hex; reflexivity|].
    exists d. split; [exact Hd|]. split; [exact He|].
    cbn [engine Core.to_ExecutionResponse].
    destruct (Core.result_engine res); cbn; rewrite !elem_of_cons; auto.
  - intros server. unfold executeAgent. apply client_request_reply.
  - apply (bool_decide_unpack _). vm_compute. exact I.
Qed.

(** With all three engines available, a high-priority request of middling
    complexity from a signed-in user comes back to the client with the
    engine the router decided on, the dialogue engine. *)
Lemma C2_engine_in_closed_set_witness :
  match snd (executeAgent
               (mkExecutionRequest "Summarise the quarterly report" HIGH
                                   None None None)
               (Core.api_execute sample_env token_of_ada)
               (setToken "abc" blank_tab)) with
  | Fulfilled response => engine response = AUTOGEN
  | Rejected _ _ => False
  end.
Proof.
  pose proof (C2_engine_in_closed_set sample_env token_of_ada None
                (mkExecutionRequest "Summarise the quarterly report" HIGH
                                    None None None)
                (Core.mkRoutingPolicy 3 7 100) 6 HIGH None all_available
                (setToken "abc" blank_tab))
    as (_ & _ & H & _).
  destruct (snd (executeAgent _ _ _)) as [response|code dt] eqn:E.
  - destruct H as (d & Hd & He & _). rewrite He.
    vm_compute in Hd. injection Hd as <-. reflexivity.
  - vm_compute in E. discriminate E.
Defined.

(** ** What one call does to the tab *)

Lemma client_request_state {A} (config : Request) (s : Server A) (b : Browser) :
  fst (client_request config s b)
  = responseInterceptor
      (reply_status (s (requestInterceptor (client_token b) config)))
      (push_sent (requestInterceptor (client_token b) config) b).
Proof. unfold client_request. destruct (s _) as [d|st dt]; reflexivity. Qed.

Lemma responseInterceptor_cases (st : option Z) (b : Browser) :
  (st = Some 401
   ∧ responseInterceptor st b
     = set_location_href "/login" (set_client_token None b))
  ∨ (st ≠ Some 401 ∧ responseInterceptor st b = b).
Proof. unfold responseInterceptor. case_bool_decide; auto. Qed.

(** The three things a call can do to the token: store a new one in both
    places, remove it from both places, or leave localStorage alone and
    keep or drop the in-memory one. *)
Lemma perform_token_cases (c : ApiCall) (b : Browser) :
  (∃ t, client_token (perform c b) = Some t
        ∧ localStorage (perform c b) = <["token" := t]> (localStorage b)
        ∧ answer_fulfilled c b = true)
  ∨ (client_token (perform c b) = None
     ∧ localStorage (perform c b) = delete "token" (localStorage b)
     ∧ is_logout c = true)
  ∨ (localStorage (perform c b) = localStorage b
     ∧ (client_token (perform c b) = client_token b
        ∨ client_token (perform c b) = None
          ∧ answer_status c b = Some 401)).
Proof.
  destruct c; cbn [perform].
  - unfold login, answer_fulfilled, answer_status; cbn [config_of].
    pose proof (client_request_state
                  (axios_create POST "/auth/login" []
                                (LoginBody username_ password_)) server b) as Hst.
    pose proof (client_request_reply
                  (axios_create POST "/auth/login" []
                                (LoginBody username_ password_)) server b) as Hr.
    destruct (client_request _ server b) as [b1 r]; cbn [fst snd] in *.
    destruct r as [d|st dt]; subst b1; rewrite <- !Hr;
      cbn [fst is_fulfilled reply_status].
    + left. exists (access_token d). cbn. auto.
    + right. right.
      destruct (responseInterceptor_cases st
                  (push_sent (requestInterceptor (client_token b)
                     (axios_create POST "/auth/login" []
                        (LoginBody username_ password_))) b))
        as [[-> ->]|[_ ->]]; cbn; auto.
  - right. left. cbn. auto.
  - unfold refreshToken, answer_fulfilled, answer_status; cbn [config_of].
    pose proof (client_request_state
                  (axios_create POST "/auth/refresh" [] NoBody) server b) as Hst.
    pose proof (client_request_reply
                  (axios_create POST "/auth/refresh" [] NoBody) server b) as Hr.
    destruct (client_request _ server b) as [b1 r]; cbn [fst snd] in *.
    destruct r as [d|st dt]; subst b1; rewrite <- !Hr;
      cbn [fst is_fulfilled reply_status].
    + left. exists d. cbn. auto.
    + right. right.
      destruct (responseInterceptor_cases st
                  (push_sent (requestInterceptor (client_token b)
                     (axios_create POST "/auth/refresh" [] NoBody)) b))
        as [[-> ->]|[_ ->]]; cbn; auto.
  - right. right. unfold executeAgent, answer_status; cbn [config_of].
    rewrite client_request_state.
    destruct (responseInterceptor_cases
                (reply_status (server (requestInterceptor (client_token b)
                   (axios_create POST "/api/v1/execute" []
                      (ExecuteBody request_)))))
                (push_sent (requestInterceptor (client_token b)
                   (axios_create POST "/api/v1/execute" []
                      (ExecuteBody request_))) b))
      as [[H ->]|[_ ->]]; cbn; auto.
  - right. right. unfold getExecutionHistory, answer_status; cbn [config_of].
    rewrite client_request_state.
    destruct (responseInterceptor_cases
                (reply_status (server (requestInterceptor (client_token b)
                   (axios_create GET "/api/v1/executions"
                      [("limit", default 50 limit); ("offset", default 0 offset)]
                      NoBody))))
                (push_sent (requestInterceptor (client_token b)
                   (axios_create GET "/api/v1/executions"
                      [("limit", default 50 limit); ("offset", default 0 offset)]
                      NoBody)) b))
      as [[H ->]|[_ ->]]; cbn; auto.
  - right. right. unfold getMetrics, answer_status; cbn [config_of].
    rewrite client_request_state.
    destruct (responseInterceptor_cases
                (reply_status (server (requestInterceptor (client_token b)
                   (axios_create GET "/metrics" [] NoBody))))
                (push_sent (requestInterceptor (client_token b)
                   (axios_create GET "/metrics" [] NoBody)) b))
      as [[H ->]|[_ ->]]; cbn; auto.
  - right. right. unfold getSystemStatus, answer_status; cbn [config_of].
    rewrite client_request_state.
    destruct (responseInterceptor_cases
                (reply_status (server (requestInterceptor (client_token b)
                   (axios_create GET "/health/detailed" [] NoBody))))
                (push_sent (requestInterceptor (client_token b)
                   (axios_create GET "/health/detailed" [] NoBody)) b))
      as [[H ->]|[_ ->]]; cbn; auto.
Qed.

(** Every call but [logout] sends its request, lets the response
    interceptor act on the answer, and possibly ends with [setToken]. *)
Lemma perform_shape (c : ApiCall) (b : Browser) :
  (is_logout c = true ∧ perform c b = fst (logout b))
  ∨ ∃ config,
      config_of c = Some config
      ∧ is_logout c = false
      ∧ (perform c b
         = responseInterceptor (answer_status c b)
             (push_sent (requestInterceptor (client_token b) config) b)
         ∨ ∃ t, answer_fulfilled c b = true
                ∧ touches_token c = true
                ∧ perform c b
                  = setToken t
                      (push_sent (requestInterceptor (client_token b) config) b)).
Proof.
  destruct c; cbn [perform]; [| left; split; reflexivity | | | | |];
    right; eexists; (split; [reflexivity|]); (split; [reflexivity|]);
    unfold answer_status, answer_fulfilled; cbn [config_of].
  - unfold login, client_request.
    destruct (server _) as [d|st dt]; cbn; [right; eauto | left; reflexivity].
  - unfold refreshToken, client_request.
    destruct (server _) as [d|st dt]; cbn; [right; eauto | left; reflexivity].
  - left. unfold executeAgent. apply client_request_state.
  - left. unfold getExecutionHistory. apply client_request_state.
  - left. unfold getMetrics. apply client_request_state.
  - left. unfold getSystemStatus. apply client_request_state.
Qed.

Lemma perform_frame (c : ApiCall) (b : Browser) :
  dispatched (perform c b) = dispatched b
  ∧ store_created (perform c b) = store_created b
  ∧ (answer_status c b = Some 401 -> location_href (perform c b) = "/login")
  ∧ (answer_status c b ≠ Some 401 ->
     location_href (perform c b) = location_href b).
Proof.
  destruct (perform_shape c b) as [[Hl ->]|(config & Hc & Hl & [->|(t & Hf & _ & ->)])].
  - destruct c; try discriminate Hl. cbn. repeat split; auto. discriminate.
  - destruct (responseInterceptor_cases (answer_status c b)
                (push_sent (requestInterceptor (client_token b) config) b))
      as [[H ->]|[H ->]]; cbn; repeat split; auto; intros; congruence.
  - cbn. repeat split; auto. intros H401. exfalso.
    destruct c; try discriminate Hc; unfold answer_status, answer_fulfilled in *;
      cbn [config_of] in *; destruct (server _); discriminate.
Qed.

(** ** What the handlers do to the tab *)

Lemma handleLogin_cases (server : Server LoginData) (st : LoginPageState)
    (b : Browser) :
  match server (requestInterceptor (client_token b)
                  (axios_create POST "/auth/login" []
                     (LoginBody (login_username st) (login_password st)))) with
  | Fulfilled d =>
      handleLogin server st b
      = (mkLoginPageState (login_username st) (login_password st)
                          EmptyString false,
         set_location_href "/dashboard"
           (dispatch (authSlice.login (data_user d) (access_token d))
              (perform (call_login (login_username st) (login_password st)
                                   server) b)))
  | Rejected _ dt =>
      handleLogin server st b
      = (mkLoginPageState (login_username st) (login_password st)
                          (default "Login failed" (or_null dt)) false,
         perform (call_login (login_username st) (login_password st) server) b)
  end.
Proof.
  unfold handleLogin, perform, login, client_request.
  destruct (server _) as [d|code dt]; reflexivity.
Qed.

Lemma handleSubmit_cases (server : Server ExecutionResponse)
    (st : ExecutionFormState) (b : Browser) :
  match server (requestInterceptor (client_token b)
                  (axios_create POST "/api/v1/execute" []
                     (ExecuteBody (form_request st)))) with
  | Fulfilled response =>
      handleSubmit server st b
      = (mkExecutionFormState EmptyString (form_priority st) false EmptyString
                              (Some response),
         dispatch (executionsSlice.addExecution response)
           (perform (call_executeAgent (form_request st) server) b))
  | Rejected _ dt =>
      handleSubmit server st b
      = (mkExecutionFormState (form_taskDescription st) (form_priority st) false
                              (default "Execution failed" (or_null dt))
                              (form_result st),
         perform (call_executeAgent (form_request st) server) b)
  end.
Proof.
  unfold handleSubmit, perform, executeAgent, client_request, form_request.
  destruct (server _) as [d|code dt]; reflexivity.
Qed.

Lemma Dashboard_mount_browser (server : Server SystemStatus) (b : Browser) :
  snd (Dashboard_mount server b) = perform (call_getSystemStatus server) b.
Proof.
  unfold Dashboard_mount, perform.
  destruct (getSystemStatus server b) as [b1 [s|code dt]]; reflexivity.
Qed.

(** An event is a page load, or one call followed by at most one dispatch
    and a change of location. *)
Lemma happen_shape (e : Event) (b : Browser) :
  happen e b = pageLoad b
  ∨ ∃ c, (happen e b = perform c b
          ∨ ∃ a h, (type a = "auth/login" ∨ type a = "executions/addExecution")
                   ∧ answer_fulfilled c b = true
                   ∧ happen e b
                     = set_location_href h (dispatch a (perform c b)))
         ∧ (touches_token c = true -> is_logout c = false ->
            may_setToken e = true)
         ∧ (config_of c = Some (axios_create POST "/auth/refresh" [] NoBody) ->
            calls_refreshToken e = true).
Proof.
  destruct e as [c| |server st|server st|server|]; cbn [happen].
  - right. exists c. split; [left; reflexivity|]. split.
    + destruct c; cbn; auto; discriminate.
    + destruct c; cbn; auto; discriminate.
  - left. reflexivity.
  - right. exists (call_login (login_username st) (login_password st) server).
    split; [|split; [reflexivity | discriminate]].
    pose proof (handleLogin_cases server st b) as H.
    unfold answer_fulfilled; cbn [config_of].
    destruct (server _) as [d|code dt]; rewrite H; cbn [snd];
      [right | left; reflexivity].
    exists (authSlice.login (data_user d) (access_token d)), "/dashboard".
    split; [left; reflexivity|]. split; reflexivity.
  - right. exists (call_executeAgent (form_request st) server).
    split; [|split; discriminate].
    pose proof (handleSubmit_cases server st b) as H.
    unfold answer_fulfilled; cbn [config_of].
    destruct (server _) as [d|code dt]; rewrite H; cbn [snd];
      [right | left; reflexivity].
    exists (executionsSlice.addExecution d),
           (location_href (perform (call_executeAgent (form_request st) server) b)).
    split; [right; reflexivity|]. split; [reflexivity|].
    destruct (perform _ b); reflexivity.
  - right. exists (call_getSystemStatus server).
    split; [left; apply Dashboard_mount_browser|]. split; discriminate.
  - right. exists call_logout. split; [left; reflexivity|].
    split; discriminate.
Qed.

Lemma fulfilled_no_status (c : ApiCall) (b : Browser) :
  answer_fulfilled c b = true -> answer_status c b = None.
Proof.
  unfold answer_fulfilled, answer_status.
  destruct c; cbn [config_of]; try reflexivity;
    destruct (server _); cbn; first [reflexivity | discriminate].
Qed.

Lemma getToken_coherent (b : Browser) :
  token_coherent b -> getToken b = localStorage b !! "token".
Proof.
  intros Hco. unfold getToken, or_null.
  destruct (client_token b) as [t|] eqn:Ht; [|reflexivity].
  destruct (truthy t); [|reflexivity]. symmetry. apply Hco. exact Ht.
Qed.

(** ** Token storage: round trip, logout, coherence *)

Lemma getToken_setToken (t : string) (b : Browser) :
  getToken (setToken t b) = Some t.
Proof.
  unfold getToken, setToken; cbn.
  destruct (truthy t); [reflexivity | apply lookup_insert_eq].
Qed.

(** X1: [getToken] reads back what [setToken] wrote, for every string
    including the empty one; a second [setToken] wins; the token survives a
    page load; no other localStorage entry is touched. *)
Theorem X1_setToken_getToken (t t' : string) (b : Browser) :
  getToken (setToken t b) = Some t
  ∧ getToken (setToken t' (setToken t b)) = Some t'
  ∧ getToken (pageLoad (setToken t b)) = Some t
  ∧ (∀ k, k ≠ "token" ->
          localStorage (setToken t b) !! k = localStorage b !! k).
Proof.
  split; [apply getToken_setToken|]. split; [apply getToken_setToken|]. split.
  - unfold getToken, pageLoad, setToken; cbn. apply lookup_insert_eq.
  - intros k Hk. unfold setToken; cbn. apply lookup_insert_ne. congruence.
Qed.

(** X2: after [logout], [getToken] answers null whatever was held before,
    a second [logout] changes nothing, every later request goes out
    without an [Authorization] header, and the next page load starts
    unauthenticated. *)
Theorem X2_logout_forgets_token (b : Browser) (c : ApiCall) :
  getToken (fst (logout b)) = None
  ∧ fst (logout (fst (logout b))) = fst (logout b)
  ∧ Forall (fun rq => authorization rq = None)
           (newly_sent (fst (logout b)) (perform c (fst (logout b))))
  ∧ isAuthenticated (auth (store_created (pageLoad (fst (logout b))))) = false
  ∧ token (auth (store_created (pageLoad (fst (logout b))))) = None.
Proof.
  split; [|split; [|split; [|split]]].
  - unfold getToken, logout; cbn. apply lookup_delete_eq.
  - unfold logout; cbn. unfold set_localStorage, set_client_token; cbn.
    rewrite delete_delete_eq. reflexivity.
  - apply (newly_sent_headers c (fst (logout b))).
  - unfold pageLoad, logout; cbn. rewrite lookup_delete_eq. reflexivity.
  - unfold pageLoad, logout; cbn. rewrite lookup_delete_eq. reflexivity.
Qed.

Lemma perform_coherent (c : ApiCall) (b : Browser) :
  token_coherent b -> token_coherent (perform c b).
Proof.
  intros Hco t Ht.
  destruct (perform_token_cases c b)
    as [(t' & Htok & Hls & _)|[(Htok & _ & _)|(Hls & [Htok|[Htok _]])]].
  - rewrite Htok in Ht. injection Ht as <-. rewrite Hls. apply lookup_insert_eq.
  - rewrite Htok in Ht. discriminate Ht.
  - rewrite Hls. apply Hco. rewrite <- Htok. exact Ht.
  - rewrite Htok in Ht. discriminate Ht.
Qed.

Lemma happen_coherent (e : Event) (b : Browser) :
  token_coherent b -> token_coherent (happen e b).
Proof.
  intros Hco.
  destruct (happen_shape e b) as [->|(c & [->|(a & h & _ & _ & ->)] & _)].
  - intros t Ht. discriminate Ht.
  - apply perform_coherent. exact Hco.
  - apply (perform_coherent c) in Hco. exact Hco.
Qed.

Lemma happen_all_coherent (es : list Event) (b : Browser) :
  token_coherent b -> token_coherent (happen_all es b).
Proof.
  revert b. induction es as [|e es IH]; intros b Hco; [exact Hco|].
  cbn. apply IH. apply happen_coherent. exact Hco.
Qed.

(** X3: in every state the tab reaches after a page load, through any
    sequence of API calls, handler runs and further page loads, the
    in-memory token is either absent or equal to the stored one; so
    [getToken] always answers exactly what localStorage holds. *)
Theorem X3_memory_token_is_stored_token (es : list Event) (b : Browser) :
  token_coherent (happen_all es (pageLoad b))
  ∧ getToken (happen_all es (pageLoad b))
    = localStorage (happen_all es (pageLoad b)) !! "token".
Proof.
  assert (Hco : token_coherent (happen_all es (pageLoad b))).
  { apply happen_all_coherent. intros t Ht. discriminate Ht. }
  split; [exact Hco | apply getToken_coherent; exact Hco].
Qed.

(** ** Rejected calls *)

Lemma perform_rejected (c : ApiCall) (b : Browser) :
  answer_fulfilled c b = false ->
  ∃ config,
    config_of c = Some config
    ∧ perform c b
      = responseInterceptor (answer_status c b)
          (push_sent (requestInterceptor (client_token b) config) b).
Proof.
  intros Hrej.
  destruct (perform_shape c b)
    as [[Hl _]|(config & Hc & _ & [Hp|(t & Hf & _ & _)])].
  - destruct c; discriminate.
  - exists config. auto.
  - rewrite Hf in Hrej. discriminate Hrej.
Qed.

(** X4: whichever call the server answers with 401, the client drops its
    in-memory token and points the tab to [/login], but leaves the token in
    localStorage: [getToken] still answers it, and the page that loads next
    starts authenticated exactly when that stale token is a non-empty
    string. *)
Theorem X4_unauthorized_keeps_stored_token (c : ApiCall) (b : Browser) :
  answer_status c b = Some 401 ->
  location_href (perform c b) = "/login"
  ∧ client_token (perform c b) = None
  ∧ localStorage (perform c b) = localStorage b
  ∧ dispatched (perform c b) = dispatched b
  ∧ getToken (perform c b) = localStorage b !! "token"
  ∧ isAuthenticated (auth (store_created (pageLoad (perform c b))))
    = double_bang (localStorage b !! "token").
Proof.
  intros H401.
  assert (Hrej : answer_fulfilled c b = false).
  { destruct (answer_fulfilled c b) eqn:Hf; [|reflexivity].
    apply fulfilled_no_status in Hf. congruence. }
  destruct (perform_rejected c b Hrej) as (config & _ & ->).
  rewrite H401. unfold responseInterceptor, getToken. cbn.
  repeat split; reflexivity.
Qed.

(** A tab holding [abc] whose metrics call is answered 401. *)
Lemma X4_unauthorized_keeps_stored_token_witness :
  location_href (perform (call_getMetrics (refuses 401))
                         (setToken "abc" blank_tab)) = "/login"
  ∧ getToken (perform (call_getMetrics (refuses 401))
                      (setToken "abc" blank_tab)) = Some "abc"
  ∧ isAuthenticated
      (auth (store_created
               (pageLoad (perform (call_getMetrics (refuses 401))
                                  (setToken "abc" blank_tab))))) = true.
Proof.
  destruct (X4_unauthorized_keeps_stored_token
              (call_getMetrics (refuses 401)) (setToken "abc" blank_tab)
              eq_refl)
    as (Hhref & _ & _ & _ & Hget & Hauth).
  split; [exact Hhref|]. split.
  - rewrite Hget. vm_compute. reflexivity.
  - rewrite Hauth. vm_compute. reflexivity.
Defined.

(** X5: a call the server rejects sends its one request and is not
    retried, writes nothing to localStorage and dispatches nothing; unless
    the status is 401, the in-memory token and the location are as
    before.  In particular a failed [login] or [refreshToken] leaves the
    old token in place. *)
Theorem X5_rejected_call_changes_nothing (c : ApiCall) (b : Browser) :
  answer_fulfilled c b = false ->
  length (newly_sent b (perform c b)) = 1%nat
  ∧ localStorage (perform c b) = localStorage b
  ∧ dispatched (perform c b) = dispatched b
  ∧ (answer_status c b ≠ Some 401 ->
     client_token (perform c b) = client_token b
     ∧ location_href (perform c b) = location_href b
     ∧ getToken (perform c b) = getToken b).
Proof.
  intros Hrej.
  assert (Hl : is_logout c = false) by (destruct c; first [reflexivity | discriminate]).
  split; [exact (length_newly_sent c b Hl)|].
  destruct (perform_rejected c b Hrej) as (config & _ & ->).
  destruct (responseInterceptor_cases (answer_status c b)
              (push_sent (requestInterceptor (client_token b) config) b))
    as [[H ->]|[H ->]]; cbn.
  - repeat split; auto. contradiction. contradiction. contradiction.
  - repeat split; auto.
Qed.

(** A login refused with 403 in a tab that holds [abc]. *)
Lemma X5_rejected_call_changes_nothing_witness :
  getToken (perform (call_login "ada" "wrong" (refuses 403))
                    (setToken "abc" blank_tab)) = Some "abc"
  ∧ location_href (perform (call_login "ada" "wrong" (refuses 403))
                           (setToken "abc" blank_tab))
    = location_href (setToken "abc" blank_tab)
  ∧ length (newly_sent (setToken "abc" blank_tab)
              (perform (call_login "ada" "wrong" (refuses 403))
                       (setToken "abc" blank_tab))) = 1%nat.
Proof.
  destruct (X5_rejected_call_changes_nothing
              (call_login "ada" "wrong" (refuses 403))
              (setToken "abc" blank_tab) eq_refl)
    as (Hlen & _ & _ & Hkeep).
  destruct Hkeep as (_ & Hhref & Hget); [vm_compute; discriminate|].
  split; [rewrite Hget; vm_compute; reflexivity|].
  split; [exact Hhref | exact Hlen].
Defined.

(** ** Token refresh *)

(** X6: [refreshToken] sends one body-less POST to [/auth/refresh] that
    carries the token held so far; when the server answers with a new
    token, that token replaces the old one in memory and in localStorage,
    the call returns it, and the next request of any kind carries the new
    token and not the old one. *)
Theorem X6_refresh_replaces_token (server : Server string) (b : Browser)
    (t' : string) (c : ApiCall) :
  server (requestInterceptor (client_token b)
            (axios_create POST "/auth/refresh" [] NoBody)) = Fulfilled t' ->
  (newly_sent b (fst (refreshToken server b))
   = [requestInterceptor (client_token b)
        (axios_create POST "/auth/refresh" [] NoBody)]
   ∧ authorization (requestInterceptor (client_token b)
                      (axios_create POST "/auth/refresh" [] NoBody))
     = bearer_of (client_token b))
  ∧ snd (refreshToken server b) = Fulfilled t'
  ∧ client_token (fst (refreshToken server b)) = Some t'
  ∧ localStorage (fst (refreshToken server b)) !! "token" = Some t'
  ∧ getToken (fst (refreshToken server b)) = Some t'
  ∧ Forall (fun rq => authorization rq = bearer_of (Some t'))
           (newly_sent (fst (refreshToken server b))
                       (perform c (fst (refreshToken server b)))).
Proof.
  intros Hd.
  assert (Hsent : newly_sent b (fst (refreshToken server b))
                  = [requestInterceptor (client_token b)
                       (axios_create POST "/auth/refresh" [] NoBody)]).
  { change (fst (refreshToken server b))
      with (perform (call_refreshToken server) b).
    rewrite newly_sent_perform. reflexivity. }
  split; [split; [exact Hsent|]|].
  { apply authorization_requestInterceptor. reflexivity. }
  assert (Hst : refreshToken server b
                = (setToken t'
                     (push_sent (requestInterceptor (client_token b)
                        (axios_create POST "/auth/refresh" [] NoBody)) b),
                   Fulfilled t')).
  { unfold refreshToken, client_request. rewrite Hd. reflexivity. }
  pose proof (newly_sent_headers c (fst (refreshToken server b))) as Hnext.
  rewrite Hst in *. cbn [fst snd] in *.
  split; [reflexivity|]. split; [reflexivity|].
  split; [apply lookup_insert_eq|].
  split; [apply getToken_setToken|]. exact Hnext.
Qed.

(** A tab holding [old] refreshes to [new]: the refresh request carries
    [old], the status call after it carries [new]. *)
Lemma X6_refresh_replaces_token_witness :
  authorization
    <$> newly_sent (setToken "old" blank_tab)
          (fst (refreshToken (answers "new") (setToken "old" blank_tab)))
  = [Some "Bearer old"]
  ∧ Forall (fun rq => authorization rq = Some "Bearer new")
      (newly_sent
         (fst (refreshToken (answers "new") (setToken "old" blank_tab)))
         (perform (call_getSystemStatus (answers healthy))
            (fst (refreshToken (answers "new") (setToken "old" blank_tab))))).
Proof.
  destruct (X6_refresh_replaces_token (answers "new")
              (setToken "old" blank_tab) "new"
              (call_getSystemStatus (answers healthy)) eq_refl)
    as ([Hsent Hold] & _ & _ & _ & _ & Hnext).
  split; [rewrite Hsent; vm_compute; reflexivity | exact Hnext].
Defined.

(** ** Outcomes of the two forms *)

Lemma or_default_nonempty (fallback : string) (dt : option string) :
  fallback ≠ EmptyString -> default fallback (or_null dt) ≠ EmptyString.
Proof.
  intros Hf. unfold or_null. destruct dt as [s|]; cbn; [|exact Hf].
  destruct (truthy s) eqn:Hs; cbn; [|exact Hf].
  apply truthy_nonempty. exact Hs.
Qed.

(** X7: the login handler always ends with the loading flag off and the
    typed user name and password untouched.  When the server accepts, it
    clears the error, dispatches exactly one [auth/login] action carrying
    the returned user and token, stores the token and points the tab to
    [/dashboard].  When the server rejects, it dispatches nothing, stores
    nothing, and shows a non-empty message: the server's [detail] if that
    is a non-empty string, [Login failed] otherwise. *)
Theorem X7_login_page_outcome (server : Server LoginData)
    (st : LoginPageState) (b : Browser) :
  (login_isLoading (fst (handleLogin server st b)) = false
   ∧ login_username (fst (handleLogin server st b)) = login_username st
   ∧ login_password (fst (handleLogin server st b)) = login_password st)
  ∧ match server (requestInterceptor (client_token b)
                    (axios_create POST "/auth/login" []
                       (LoginBody (login_username st) (login_password st)))) with
    | Fulfilled d =>
        login_error (fst (handleLogin server st b)) = EmptyString
        ∧ dispatched (snd (handleLogin server st b))
          = dispatched b ++ [authSlice.login (data_user d) (access_token d)]
        ∧ location_href (snd (handleLogin server st b)) = "/dashboard"
        ∧ getToken (snd (handleLogin server st b)) = Some (access_token d)
    | Rejected code dt =>
        login_error (fst (handleLogin server st b))
        = default "Login failed" (or_null dt)
        ∧ login_error (fst (handleLogin server st b)) ≠ EmptyString
        ∧ dispatched (snd (handleLogin server st b)) = dispatched b
        ∧ localStorage (snd (handleLogin server st b)) = localStorage b
        ∧ location_href (snd (handleLogin server st b))
          = (if bool_decide (code = Some 401) then "/login"
             else location_href b)
    end.
Proof.
  pose proof (handleLogin_cases server st b) as H.
  unfold perform, login, client_request in H.
  destruct (server _) as [d|code dt]; rewrite H; cbn [fst snd].
  - split; [auto|]. split; [reflexivity|]. split; [reflexivity|].
    split; [reflexivity|]. apply getToken_setToken.
  - split; [auto|]. split; [reflexivity|].
    split; [apply or_default_nonempty; discriminate|].
    unfold responseInterceptor. case_bool_decide; cbn; auto.
Qed.

(** X8: the execution form sends exactly one POST to [/api/v1/execute]
    with the typed description and the chosen priority and no context, token
    limit or temperature, whatever the state of the submit button; it
    always ends with the loading flag off.  On success it shows the
    response, dispatches one [executions/addExecution] with it and empties
    the description, so the submit button is disabled again.  On rejection
    it keeps the description and the previous result, dispatches nothing,
    and shows a non-empty message: the server's [detail] or
    [Execution failed]. *)
Theorem X8_execution_form_outcome (server : Server ExecutionResponse)
    (st : ExecutionFormState) (b : Browser) :
  (form_isLoading (fst (handleSubmit server st b)) = false
   ∧ form_priority (fst (handleSubmit server st b)) = form_priority st
   ∧ newly_sent b (snd (handleSubmit server st b))
     = [requestInterceptor (client_token b)
          (axios_create POST "/api/v1/execute" []
             (ExecuteBody
                (mkExecutionRequest (form_taskDescription st) (form_priority st)
                                    None None None)))])
  ∧ match server (requestInterceptor (client_token b)
                    (axios_create POST "/api/v1/execute" []
                       (ExecuteBody (form_request st)))) with
    | Fulfilled response =>
        form_result (fst (handleSubmit server st b)) = Some response
        ∧ form_taskDescription (fst (handleSubmit server st b)) = EmptyString
        ∧ form_error (fst (handleSubmit server st b)) = EmptyString
        ∧ submit_disabled (fst (handleSubmit server st b)) = true
        ∧ dispatched (snd (handleSubmit server st b))
          = dispatched b ++ [executionsSlice.addExecution response]
    | Rejected code dt =>
        form_result (fst (handleSubmit server st b)) = form_result st
        ∧ form_taskDescription (fst (handleSubmit server st b))
          = form_taskDescription st
        ∧ form_error (fst (handleSubmit server st b))
          = default "Execution failed" (or_null dt)
        ∧ form_error (fst (handleSubmit server st b)) ≠ EmptyString
        ∧ dispatched (snd (handleSubmit server st b)) = dispatched b
    end.
Proof.
  pose proof (handleSubmit_cases server st b) as H.
  assert (Hsent : newly_sent b (perform (call_executeAgent (form_request st)
                                                           server) b)
                  = [requestInterceptor (client_token b)
                       (axios_create POST "/api/v1/execute" []
                          (ExecuteBody (form_request st)))])
    by (rewrite newly_sent_perform; reflexivity).
  pose proof (perform_frame (call_executeAgent (form_request st) server) b)
    as (Hdisp & _).
  destruct (server _) as [d|code dt]; rewrite H; cbn [fst snd].
  - split; [split; [reflexivity | split; [reflexivity | exact Hsent]]|].
    split; [reflexivity|]. split; [reflexivity|]. split; [reflexivity|].
    split; [reflexivity|]. unfold dispatch; cbn [dispatched].
    rewrite Hdisp. reflexivity.
  - split; [split; [reflexivity | split; [reflexivity | exact Hsent]]|].
    split; [reflexivity|]. split; [reflexivity|]. split; [reflexivity|].
    split; [apply or_default_nonempty; discriminate | exact Hdisp].
Qed.

(** ** Routes *)

Lemma ProtectedRoute_no_role (a : AuthState) :
  ProtectedRoute None a
  = (if isAuthenticated a && bool_decide (is_Some (user a))
     then Children else NavigateToLogin).
Proof.
  unfold ProtectedRoute. destruct (isAuthenticated a), (user a) as [u|];
    reflexivity.
Qed.

(** X9: whichever route entry the location matches, the app never renders
    the access-denied page, since the one protected route names no required
    role.  The dashboard is rendered exactly for the [/dashboard] and [/]
    entries in an authenticated state that holds a user, whatever that
    user's role or active flag; the [/login] entry always renders the login
    page; nothing is rendered exactly when no entry matches. *)
Theorem X9_routes (matched : option RoutePath) (st : RootState) :
  App matched st ≠ AccessDeniedScreen
  ∧ (App matched st = DashboardScreen
     <-> (matched = Some path_dashboard ∨ matched = Some path_root)
         ∧ isAuthenticated (auth st) = true ∧ is_Some (user (auth st)))
  ∧ (App matched st = NoMatch <-> matched = None)
  ∧ App (Some path_login) st = LoginScreen
  ∧ App (Some path_root) st = App (Some path_dashboard) st.
Proof.
  assert (HG : isAuthenticated (auth st)
               && bool_decide (is_Some (user (auth st))) = true
               <-> isAuthenticated (auth st) = true
                   ∧ is_Some (user (auth st))).
  { rewrite andb_true_iff, bool_decide_eq_true. reflexivity. }
  split; [|split; [|split; [|split; reflexivity]]];
    unfold App; rewrite ProtectedRoute_no_role;
    destruct (isAuthenticated (auth st)
              && bool_decide (is_Some (user (auth st))));
    destruct matched as [[]|]; cbn; try discriminate;
    split; intros; try discriminate; try split; try tauto;
    try (intuition congruence).
Qed.

(** X10: in the initial state, whatever localStorage holds, the guard
    redirects to the login page for every required role and for none, and
    the history table is not rendered: a stored non-empty token makes the
    state authenticated, but the state has no user and the guard asks for
    both. *)
Theorem X10_initial_state_never_passes_guard (ls : gmap string string)
    (requiredRole : option UserRole) :
  ProtectedRoute requiredRole (auth (initialState ls)) = NavigateToLogin
  ∧ Dashboard_history (initialState ls) = None
  ∧ (∀ t, t ≠ EmptyString ->
          isAuthenticated (auth (initialState (<["token" := t]> ls))) = true
          ∧ ProtectedRoute requiredRole
              (auth (initialState (<["token" := t]> ls)))
            = NavigateToLogin).
Proof.
  assert (Hguard : ∀ ls', ProtectedRoute requiredRole (auth (initialState ls'))
                          = NavigateToLogin).
  { intros ls'. unfold ProtectedRoute; cbn. destruct (double_bang _); reflexivity. }
  split; [apply Hguard|]. split; [reflexivity|].
  intros t Ht. split; [|apply Hguard].
  cbn. rewrite lookup_insert_eq. cbn. apply truthy_nonempty. exact Ht.
Qed.

(** X11: the guard is downward closed in the required role: a state that
    passes for a role passes for every role of lower or equal rank and for
    a route that names no role; an administrator who is signed in passes
    every guard. *)
Theorem X11_guard_downward_closed (r r' : UserRole) (a : AuthState) :
  ProtectedRoute (Some r) a = Children ->
  roleHierarchy r' <= roleHierarchy r ->
  ProtectedRoute (Some r') a = Children
  ∧ ProtectedRoute None a = Children
  ∧ (∀ u t, role u = ADMIN ->
            ProtectedRoute (Some r) (signed_in u t) = Children).
Proof.
  intros Hr Hle. apply ProtectedRoute_children in Hr.
  destruct Hr as (Hauth & u & Hu & Hrank).
  split; [|split].
  - apply ProtectedRoute_children. split; [exact Hauth|].
    exists u. split; [exact Hu | lia].
  - unfold ProtectedRoute. rewrite Hauth, Hu. reflexivity.
  - intros u' t Hadmin. apply ProtectedRoute_children.
    split; [reflexivity|]. exists u'. split; [reflexivity|].
    rewrite Hadmin. destruct r; cbn; lia.
Qed.

(** An analyst passes a guard for [analyst], hence one for [user]. *)
Lemma X11_guard_downward_closed_witness :
  ProtectedRoute (Some USER) (signed_in (sample_user ANALYST true) "t")
  = Children.
Proof.
  destruct (X11_guard_downward_closed ANALYST USER
              (signed_in (sample_user ANALYST true) "t"))
    as (Huser & _ & _); [reflexivity | cbn; lia | exact Huser].
Defined.

(** ** Invariants of event sequences *)

Lemma happen_dispatched (e : Event) (b : Browser) :
  dispatched (happen e b) = []
  ∨ dispatched (happen e b) = dispatched b
  ∨ ∃ a, dispatched_type a ∧ dispatched (happen e b) = dispatched b ++ [a].
Proof.
  destruct (happen_shape e b) as [->|(c & [->|(a & h & Ha & _ & ->)] & _)].
  - left. reflexivity.
  - right. left. apply perform_frame.
  - right. right. exists a. split; [exact Ha|].
    unfold set_location_href, dispatch; cbn [dispatched].
    rewrite (proj1 (perform_frame c b)). reflexivity.
Qed.

Lemma happen_all_dispatched (es : list Event) (b : Browser) :
  Forall dispatched_type (dispatched b) ->
  Forall dispatched_type (dispatched (happen_all es b))
  ∧ (length (dispatched (happen_all es b))
     <= length (dispatched b) + length es)%nat.
Proof.
  revert b. induction es as [|e es IH]; intros b Hb.
  - cbn. split; [exact Hb | lia].
  - cbn [happen_all foldl].
    assert (Hstep : Forall dispatched_type (dispatched (happen e b))
                    ∧ (length (dispatched (happen e b))
                       <= length (dispatched b) + 1)%nat).
    { destruct (happen_dispatched e b) as [->|[->|(a & Ha & ->)]].
      - split; [constructor | cbn; lia].
      - split; [exact Hb | lia].
      - split; [apply Forall_app; split;
                  [exact Hb | constructor; [exact Ha | constructor]]|].
        rewrite length_app. cbn. lia. }
    destruct Hstep as [Hok Hlen].
    destruct (IH (happen e b) Hok) as [Hall Hlen'].
    split; [exact Hall|]. unfold happen_all in *. cbn [length]. lia.
Qed.

(** X12: whatever happens in the tab, the only actions that ever reach the
    store are [auth/login] and [executions/addExecution], at most one per
    event; no [auth/logout], [auth/setError], [executions/setExecutions],
    [executions/setCurrentExecution] or [executions/setLoading] is ever
    dispatched, so the store never learns of a logout or of the server's
    execution history. *)
Theorem X12_only_two_actions_dispatched (es : list Event) (b : Browser) :
  Forall (fun a => type a = "auth/login" ∨ type a = "executions/addExecution")
         (dispatched (happen_all es (pageLoad b)))
  ∧ Forall (fun a => type a ≠ type authSlice.logout
                     ∧ type a ≠ type (authSlice.setError EmptyString)
                     ∧ type a ≠ type (executionsSlice.setExecutions [])
                     ∧ type a ≠ type (executionsSlice.setCurrentExecution None)
                     ∧ type a ≠ type (executionsSlice.setLoading true))
           (dispatched (happen_all es (pageLoad b)))
  ∧ (length (dispatched (happen_all es (pageLoad b))) <= length es)%nat.
Proof.
  destruct (happen_all_dispatched es (pageLoad b)) as [Hall Hlen];
    [constructor|].
  split; [exact Hall|]. split; [|exact Hlen].
  eapply Forall_impl; [exact Hall|].
  intros a [Ha|Ha]; rewrite Ha; cbn; repeat split; discriminate.
Qed.

Lemma happen_sent (e : Event) (b : Browser) :
  ∃ new, sent (happen e b) = sent b ++ new
         ∧ (length new <= 1)%nat
         ∧ Forall (sent_by e) new.
Proof.
  assert (Hperform : ∀ c,
             (config_of c = Some (axios_create POST "/auth/refresh" [] NoBody) ->
              calls_refreshToken e = true) ->
             ∃ new, sent (perform c b) = sent b ++ new
                    ∧ (length new <= 1)%nat ∧ Forall (sent_by e) new).
  { intros c Href. eexists. split; [apply sent_perform|].
    destruct (config_of c) as [config|] eqn:Hc; cbn; split; try lia;
      constructor; [|constructor].
    exists (client_token b), c, config. split; [exact Hc|].
    split; [reflexivity|]. intros ->. apply Href. reflexivity. }
  destruct (happen_shape e b)
    as [->|(c & [->|(a & h & _ & _ & ->)] & _ & Href)].
  - exists []. cbn. split; [symmetry; apply app_nil_r|].
    split; [lia | constructor].
  - apply Hperform. exact Href.
  - apply Hperform. exact Href.
Qed.

Lemma happen_all_sent (es : list Event) (b : Browser) :
  ∃ new, sent (happen_all es b) = sent b ++ new
         ∧ (length new <= length es)%nat
         ∧ Forall (fun rq => ∃ e, e ∈ es ∧ sent_by e rq) new.
Proof.
  revert b. induction es as [|e es IH]; intros b.
  - exists []. cbn. split; [symmetry; apply app_nil_r|].
    split; [lia | constructor].
  - cbn [happen_all foldl].
    destruct (happen_sent e b) as (new1 & Hs1 & Hl1 & Hf1).
    destruct (IH (happen e b)) as (new2 & Hs2 & Hl2 & Hf2).
    exists (new1 ++ new2). unfold happen_all in *.
    rewrite Hs2, Hs1, <- app_assoc. split; [reflexivity|].
    rewrite length_app. cbn [length]. split; [lia|].
    apply Forall_app. split.
    + eapply Forall_impl; [exact Hf1|]. intros rq Hrq.
      exists e. split; [apply list_elem_of_here | exact Hrq].
    + eapply Forall_impl; [exact Hf2|]. intros rq (e' & He' & Hrq).
      exists e'. split; [apply list_elem_of_further; exact He' | exact Hrq].
Qed.

Lemma requestInterceptor_url (tok : option string) (config : Request) :
  url (requestInterceptor tok config) = url config
  ∧ method (requestInterceptor tok config) = method config.
Proof.
  unfold requestInterceptor. destruct tok as [t|]; [|auto].
  destruct (truthy t); auto.
Qed.

Lemma config_of_refresh (c : ApiCall) (config : Request) :
  config_of c = Some config ->
  url config = "/auth/refresh" ->
  config = axios_create POST "/auth/refresh" [] NoBody.
Proof. destruct c; cbn; intros [= <-]; cbn; intros H; first [reflexivity | discriminate H]. Qed.

(** X13: requests already sent are never altered, each event adds at most
    one request (a rejected call is not retried), and a request to
    [/auth/refresh] goes out only when something calls [refreshToken]: no
    handler or interceptor refreshes the token on its own, not even after
    a 401. *)
Theorem X13_one_request_per_event (es : list Event) (b : Browser) :
  take (length (sent b)) (sent (happen_all es b)) = sent b
  ∧ (length (newly_sent b (happen_all es b)) <= length es)%nat
  ∧ (forallb (fun e => negb (calls_refreshToken e)) es = true ->
     Forall (fun rq => url rq ≠ "/auth/refresh")
            (newly_sent b (happen_all es b))).
Proof.
  destruct (happen_all_sent es b) as (new & Hs & Hl & Hf).
  unfold newly_sent. rewrite Hs, take_app_length, drop_app_length.
  split; [reflexivity|]. split; [exact Hl|].
  intros Hno. eapply Forall_impl; [exact Hf|].
  intros rq (e & He & tok & c & config & Hc & -> & Href) Hurl.
  rewrite (proj1 (requestInterceptor_url tok config)) in Hurl.
  pose proof (Href (config_of_refresh c config Hc Hurl)) as Hcalls.
  rewrite forallb_forall in Hno.
  apply list_elem_of_In in He. specialize (Hno e He).
  rewrite Hcalls in Hno. discriminate Hno.
Qed.

Lemma requestInterceptor_params (tok : option string) (config : Request) :
  params (requestInterceptor tok config) = params config.
Proof.
  unfold requestInterceptor. destruct tok as [t|]; [|reflexivity].
  destruct (truthy t); reflexivity.
Qed.

(** X14: every request the tab ever sends goes to one of the six paths the
    client has a method for; it is a POST exactly when the path is
    [/auth/login], [/auth/refresh] or [/api/v1/execute] and a GET
    otherwise; only a login or an execute request carries a body, and only
    the executions listing carries query parameters. *)
Theorem X14_requests_well_formed (es : list Event) (b : Browser) :
  Forall (fun rq => url rq ∈ endpoints
                    ∧ (method rq = POST
                       <-> url rq ∈ ["/auth/login"; "/auth/refresh";
                                     "/api/v1/execute"])
                    ∧ (data rq ≠ NoBody ->
                       url rq = "/auth/login" ∨ url rq = "/api/v1/execute")
                    ∧ (params rq ≠ [] -> url rq = "/api/v1/executions"))
         (newly_sent b (happen_all es b)).
Proof.
  destruct (happen_all_sent es b) as (new & Hs & _ & Hf).
  unfold newly_sent. rewrite Hs, drop_app_length.
  eapply Forall_impl; [exact Hf|].
  intros rq (e & _ & tok & c & config & Hc & -> & _).
  rewrite (proj1 (requestInterceptor_url tok config)),
    (proj2 (requestInterceptor_url tok config)),
    requestInterceptor_data, requestInterceptor_params.
  destruct c; cbn in Hc; try discriminate Hc; injection Hc as <-; cbn;
    unfold endpoints; rewrite !elem_of_cons, !elem_of_nil;
    repeat split; intros; try reflexivity; try discriminate; auto 10;
    try congruence; intuition (try discriminate; try congruence).
Qed.

(** ** The initial store state *)

Lemma or_null_Some (x : option string) (s : string) :
  or_null x = Some s <-> x = Some s ∧ s ≠ EmptyString.
Proof.
  unfold or_null. destruct x as [s'|]; [|split; [discriminate | intros [H _]; discriminate H]].
  destruct (truthy s') eqn:Hs; split.
  - intros [= <-]. split; [reflexivity | apply truthy_nonempty; exact Hs].
  - intros [[= <-] _]. reflexivity.
  - discriminate.
  - intros [[= <-] Hne]. apply truthy_nonempty in Hne. congruence.
Qed.

Lemma or_null_None (x : option string) :
  or_null x = None <-> x = None ∨ x = Some EmptyString.
Proof.
  unfold or_null. destruct x as [[|a s]|]; cbn; split; auto;
    try discriminate; intros [H|H]; discriminate H.
Qed.

(** X15: in the initial state the authenticated flag is set exactly when
    the token field is non-null, and the token field is the stored token
    when that is a non-empty string and null otherwise.  The theme is the
    stored ['theme'] string taken as it is, whatever it says, and [light]
    when that entry is missing or empty; it is never empty. *)
Theorem X15_initial_state_consistent (ls : gmap string string) :
  (isAuthenticated (auth (initialState ls)) = true
   <-> is_Some (token (auth (initialState ls))))
  ∧ (∀ t, token (auth (initialState ls)) = Some t
          <-> ls !! "token" = Some t ∧ t ≠ EmptyString)
  ∧ theme (ui (initialState ls)) ≠ EmptyString
  ∧ (∀ s, theme (ui (initialState ls)) = s
          <-> (ls !! "theme" = Some s ∧ s ≠ EmptyString)
              ∨ (s = "light"
                 ∧ (ls !! "theme" = None ∨ ls !! "theme" = Some EmptyString))).
Proof.
  cbn [initialState auth ui token isAuthenticated theme].
  split; [|split; [|split]].
  - unfold double_bang, or_null. destruct (ls !! "token") as [t|]; cbn.
    + destruct (truthy t); split; try discriminate; eauto.
      intros [x Hx]. discriminate Hx.
    + split; [discriminate|]. intros [x Hx]. discriminate Hx.
  - intros t. apply or_null_Some.
  - destruct (or_null (ls !! "theme")) as [s|] eqn:Hs; cbn; [|discriminate].
    apply or_null_Some in Hs. tauto.
  - intros s. destruct (or_null (ls !! "theme")) as [s'|] eqn:Hs; cbn.
    + apply or_null_Some in Hs. destruct Hs as [Hs Hne]. split.
      * intros <-. left. auto.
      * intros [[H _]|[_ [H|H]]]; congruence.
    + apply or_null_None in Hs. split.
      * intros <-. right. auto.
      * intros [[H Hne]|[-> _]]; [|reflexivity].
        destruct Hs as [Hs|Hs]; congruence.
Qed.

(** ** Status cards *)

(** X16: the dashboard shows no status card when the health request made
    on mount is rejected, and otherwise three cards, System Status,
    Database and Cache, with the server's strings as their text.  A card is
    green exactly when its text is [healthy]; any other overall status is
    yellow and any other dependency state is red. *)
Theorem X16_status_cards (server : Server SystemStatus) (b : Browser) :
  (status_cards (fst (Dashboard_mount server b)) = []
   <-> is_fulfilled (server (requestInterceptor (client_token b)
                               (axios_create GET "/health/detailed" [] NoBody)))
       = false)
  ∧ (∀ s, server (requestInterceptor (client_token b)
                    (axios_create GET "/health/detailed" [] NoBody))
          = Fulfilled s ->
          card_title <$> status_cards (fst (Dashboard_mount server b))
          = ["System Status"; "Database"; "Cache"]
          ∧ card_text <$> status_cards (fst (Dashboard_mount server b))
            = [health s; database s; cache s])
  ∧ Forall (fun c => (card_colour c = text_green_600
                      <-> card_text c = "healthy")
                     ∧ (card_colour c = text_yellow_600
                        <-> card_title c = "System Status"
                            ∧ card_text c ≠ "healthy")
                     ∧ (card_colour c = text_red_600
                        <-> card_title c ≠ "System Status"
                            ∧ card_text c ≠ "healthy"))
           (status_cards (fst (Dashboard_mount server b))).
Proof.
  unfold Dashboard_mount, getSystemStatus, client_request.
  destruct (server _) as [s|code dt]; cbn [fst status_cards is_fulfilled].
  - split; [split; discriminate|]. split.
    + intros s' [= <-]. split; reflexivity.
    + repeat constructor; cbn; case_bool_decide;
        intuition (try discriminate; try congruence).
  - split; [split; reflexivity|]. split; [discriminate | constructor].
Qed.

(** ** Priority select *)

Lemma TaskPriority_value_inj (p q : TaskPriority) :
  TaskPriority_value p = TaskPriority_value q -> p = q.
Proof. destruct p, q; cbn; intros H; first [reflexivity | discriminate H]. Qed.

(** X17: the priority select offers every priority exactly once, in the
    order low, medium, high, urgent, the form's initial choice [medium]
    among them; the option keys are pairwise different; each label is the
    value with its first letter in upper case, and different priorities
    have different labels. *)
Theorem X17_priority_options (p q : TaskPriority) :
  option_value <$> priority_options = [LOW; MEDIUM; HIGH; URGENT]
  ∧ p ∈ option_value <$> priority_options
  ∧ form_priority ExecutionForm_initial ∈ option_value <$> priority_options
  ∧ NoDup (option_key <$> priority_options)
  ∧ option_label <$> priority_options = ["Low"; "Medium"; "High"; "Urgent"]
  ∧ (capitalise (TaskPriority_value p) = capitalise (TaskPriority_value q)
     <-> p = q)
  ∧ String.length (capitalise (TaskPriority_value p))
    = String.length (TaskPriority_value p).
Proof.
  split; [reflexivity|]. split.
  { destruct p; cbn; rewrite !elem_of_cons; auto. }
  split; [cbn; rewrite !elem_of_cons; auto|]. split.
  { apply (bool_decide_unpack _). vm_compute. exact I. }
  split; [vm_compute; reflexivity|]. split.
  - split; [|intros ->; reflexivity].
    destruct p, q; vm_compute; intros H; first [reflexivity | discriminate H].
  - destruct p; reflexivity.
Qed.

(** ** Credentials and localStorage over event sequences *)

Lemma newly_sent_happen_cons (e : Event) (es : list Event) (b : Browser) :
  newly_sent b (happen_all (e :: es) b)
  = newly_sent b (happen e b)
    ++ newly_sent (happen e b) (happen_all es (happen e b)).
Proof.
  destruct (happen_sent e b) as (new1 & Hs1 & _).
  destruct (happen_all_sent es (happen e b)) as (new2 & Hs2 & _).
  unfold newly_sent, happen_all in *. cbn [foldl].
  rewrite Hs2, drop_app_length, Hs1, <- app_assoc, !drop_app_length.
  reflexivity.
Qed.

Lemma happen_without_token (e : Event) (b : Browser) :
  client_token b = None ->
  may_setToken e = false ->
  client_token (happen e b) = None
  ∧ Forall (fun rq => authorization rq = None) (newly_sent b (happen e b)).
Proof.
  intros Hb He.
  assert (Hperform : ∀ c, (touches_token c = true -> is_logout c = false ->
                           may_setToken e = true) ->
                          client_token (perform c b) = None
                          ∧ Forall (fun rq => authorization rq = None)
                                   (newly_sent b (perform c b))).
  { intros c Hc. split.
    - destruct (perform_shape c b)
        as [[_ ->]|(config & _ & Hl & [->|(t & _ & Ht & _)])].
      + reflexivity.
      + unfold responseInterceptor. case_bool_decide; cbn; auto.
      + rewrite (Hc Ht Hl) in He. discriminate He.
    - pose proof (newly_sent_headers c b) as Hh. rewrite Hb in Hh. exact Hh. }
  destruct (happen_shape e b)
    as [->|(c & [->|(a & h & _ & _ & ->)] & Hc & _)].
  - split; [reflexivity|]. unfold newly_sent; cbn. rewrite drop_all. constructor.
  - apply Hperform. exact Hc.
  - apply (Hperform c Hc).
Qed.

(** X18: from a page load on, as long as no [login] or [refreshToken] runs
    (directly or through the login page), the client holds no token and
    every request of every call and handler goes out without an
    [Authorization] header, whatever localStorage holds. *)
Theorem X18_no_credentials_until_login (es : list Event) (b : Browser) :
  forallb (fun e => negb (may_setToken e)) es = true ->
  client_token (happen_all es (pageLoad b)) = None
  ∧ Forall (fun rq => authorization rq = None)
           (newly_sent (pageLoad b) (happen_all es (pageLoad b))).
Proof.
  assert (Hgen : ∀ b0, client_token b0 = None ->
                       forallb (fun e => negb (may_setToken e)) es = true ->
                       client_token (happen_all es b0) = None
                       ∧ Forall (fun rq => authorization rq = None)
                                (newly_sent b0 (happen_all es b0))).
  { induction es as [|e es IH]; intros b0 Hb0 Hes.
    - split; [exact Hb0|]. unfold newly_sent; cbn. rewrite drop_all. constructor.
    - cbn [forallb] in Hes. apply andb_prop in Hes. destruct Hes as [He Hes].
      apply negb_true_iff in He.
      destruct (happen_without_token e b0 Hb0 He) as [Htok Hnew].
      destruct (IH (happen e b0) Htok Hes) as [Htok' Hnew'].
      split; [exact Htok'|].
      rewrite newly_sent_happen_cons. apply Forall_app. split; assumption. }
  intros Hes. apply Hgen; [reflexivity | exact Hes].
Qed.

(** A tab with a stored token: after the page load, the dashboard mounts,
    the form is submitted and the page loads again; three bare requests. *)
Lemma X18_no_credentials_until_login_witness :
  Forall (fun rq => authorization rq = None)
    (newly_sent
       (pageLoad (setToken "abc" blank_tab))
       (happen_all
          [ev_Dashboard_mount (answers healthy);
           ev_handleSubmit (refuses 401)
             (mkExecutionFormState "Summarise the report" HIGH false
                                   EmptyString None);
           ev_pageLoad;
           ev_api (call_getExecutionHistory None None (answers []))]
          (pageLoad (setToken "abc" blank_tab))))
  ∧ length (newly_sent
              (pageLoad (setToken "abc" blank_tab))
              (happen_all
                 [ev_Dashboard_mount (answers healthy);
                  ev_handleSubmit (refuses 401)
                    (mkExecutionFormState "Summarise the report" HIGH false
                                          EmptyString None);
                  ev_pageLoad;
                  ev_api (call_getExecutionHistory None None (answers []))]
                 (pageLoad (setToken "abc" blank_tab)))) = 3%nat.
Proof.
  split.
  - apply (X18_no_credentials_until_login
             [ev_Dashboard_mount (answers healthy);
              ev_handleSubmit (refuses 401)
                (mkExecutionFormState "Summarise the report" HIGH false
                                      EmptyString None);
              ev_pageLoad;
              ev_api (call_getExecutionHistory None None (answers []))]
             (setToken "abc" blank_tab)).
    reflexivity.
  - vm_compute. reflexivity.
Defined.

Lemma happen_localStorage (e : Event) (b : Browser) (k : string) :
  k ≠ "token" -> localStorage (happen e b) !! k = localStorage b !! k.
Proof.
  intros Hk.
  assert (Hperform : ∀ c, localStorage (perform c b) !! k = localStorage b !! k).
  { intros c.
    destruct (perform_token_cases c b)
      as [(t & _ & -> & _)|[(_ & -> & _)|(-> & _)]].
    - apply lookup_insert_ne. congruence.
    - apply lookup_delete_ne. congruence.
    - reflexivity. }
  destruct (happen_shape e b) as [->|(c & [->|(a & h & _ & _ & ->)] & _)].
  - reflexivity.
  - apply Hperform.
  - apply (Hperform c).
Qed.

(** X19: the only localStorage entry the app ever writes or removes is
    ['token']: every other entry, the stored theme among them, is the same
    after any sequence of calls, handler runs and page loads, so the
    theme the next page load starts with is the one stored before. *)
Theorem X19_only_token_entry_written (es : list Event) (b : Browser)
    (k : string) :
  k ≠ "token" ->
  localStorage (happen_all es b) !! k = localStorage b !! k
  ∧ theme (ui (initialState (localStorage (happen_all es b))))
    = theme (ui (initialState (localStorage b))).
Proof.
  intros Hk.
  assert (Hgen : ∀ k', k' ≠ "token" ->
                       localStorage (happen_all es b) !! k'
                       = localStorage b !! k').
  { intros k' Hk'. revert b. induction es as [|e es IH]; intros b;
      [reflexivity|].
    cbn [happen_all foldl]. unfold happen_all in IH.
    rewrite IH. apply happen_localStorage. exact Hk'. }
  split; [apply Hgen; exact Hk|].
  cbn [initialState ui theme]. rewrite Hgen by discriminate. reflexivity.
Qed.

(** A stored theme survives a login, a logout and a page load. *)
Lemma X19_only_token_entry_written_witness :
  localStorage
    (happen_all
       [ev_handleLogin (login_accepts "abc")
          (mkLoginPageState "ada" "pw" EmptyString false);
        ev_logout_click; ev_pageLoad]
       (set_localStorage {[ "theme" := "dark" ]} blank_tab))
    !! "theme" = Some "dark".
Proof.
  destruct (X19_only_token_entry_written
              [ev_handleLogin (login_accepts "abc")
                 (mkLoginPageState "ada" "pw" EmptyString false);
               ev_logout_click; ev_pageLoad]
              (set_localStorage {[ "theme" := "dark" ]} blank_tab)
              "theme") as [Hk _]; [discriminate|].
  rewrite Hk. vm_compute. reflexivity.
Defined.
